(** * ESP8266 AT-command driver (src/esp.py): embedding and verification

    The driver is MicroPython code (it imports [machine.UART]).  The
    embedding keeps the source's shape:

    - [bytes] values are [list byte]; [str] values are [string], read as the
      sequence of their UTF-8 bytes, which is how MicroPython stores them, so
      [bytes(s, "utf-8")] and [str(b, "utf-8")] are the two conversions of the
      standard library;
    - the UART and the clock are an interface ([Transport]); the driver
      threads a system state made of the device state and the log of all
      bytes handed to [uart.write];
    - exceptions are an explicit result ([Ret] / [Raise]);
    - the polling loop of [send_at_cmd] has no bound of its own in the source
      (it ends when the clock says so), so its model takes fuel and answers
      [None] when the fuel runs out.

    What the embedding takes for granted, all of it about the platform and
    none about the driver: the UART was constructed ([self._uart] is bound;
    [ping] and [soft_reset] also carry the other case as [uart_bound]),
    [uart.read(1)] hands back a [bytes] object, [time.time()] is an integer,
    [int()] and [str(b, "utf-8")] behave as MicroPython's do, and
    [startswith] compares bytes whatever the type of its argument (line 166
    passes a [str] to a [bytes] method, which MicroPython accepts).

    Debug printing ([self._debug], [print]) writes to the console only and is
    left out. *)

From Stdlib Require Import List ZArith Lia Bool String Ascii.
From Stdlib Require Import Strings.Byte.
Import ListNotations.
Open Scope string_scope.
Open Scope list_scope.
Open Scope Z_scope.

(* ================================================================== *)
(** ** Python byte strings *)

Module Py.

Definition bytes := list byte.

(** [b"..."] literals; Rocq strings have no escapes, CR LF is spelled out. *)
Definition lit (s : string) : bytes := list_byte_of_string s.
Definition CRLF : bytes := [x0d; x0a].
Definition QUOTE : byte := x22.

(** [a == b] on byte strings *)
Fixpoint bytes_eqb (a b : bytes) : bool :=
  match a, b with
  | [], [] => true
  | c :: a', d :: b' => Byte.eqb c d && bytes_eqb a' b'
  | _, _ => false
  end.

(** [x.startswith(p)] *)
Fixpoint startswith (p x : bytes) : bool :=
  match p, x with
  | [], _ => true
  | _ :: _, [] => false
  | a :: p', b :: x' => Byte.eqb a b && startswith p' x'
  end.

(** [sub in x] on byte strings: [sub] starts at some position of [x]. *)
Fixpoint contains (sub x : bytes) : bool :=
  startswith sub x ||
  match x with
  | [] => false
  | _ :: x' => contains sub x'
  end.

(** Slices with the clamping Python applies to out-of-range bounds. *)
Definition last_n (n : nat) (x : bytes) : bytes :=      (* x[-n:] *)
  skipn (List.length x - n)%nat x.
Definition drop_last (n : nat) (x : bytes) : bytes :=   (* x[:-n] *)
  firstn (List.length x - n)%nat x.
Definition from (a : nat) (x : bytes) : bytes :=        (* x[a:] *)
  skipn a x.
Definition slice (a b : nat) (x : bytes) : bytes :=     (* x[a:b] *)
  firstn (b - a)%nat (skipn a x).
Definition slice_to_last (a n : nat) (x : bytes) : bytes := (* x[a:-n] *)
  skipn a (firstn (List.length x - n)%nat x).

(** [x.split(sep)] for a non-empty separator: cut at each occurrence of
    [sep], scanning left to right; [skip] counts the bytes of a separator
    still to be passed over, [cur] is the piece being collected. *)
Fixpoint split_go (sep : bytes) (skip : nat) (cur x : bytes) : list bytes :=
  match x with
  | [] => [cur]
  | c :: x' =>
      match skip with
      | S k => split_go sep k cur x'
      | O =>
          if startswith sep x
          then cur :: split_go sep (List.length sep - 1)%nat [] x'
          else split_go sep 0 (cur ++ [c]) x'
      end
  end.

Definition split (sep x : bytes) : list bytes := split_go sep 0 [] x.

(** [x.strip(chars)] for a one-character set: every leading and every
    trailing occurrence goes. *)
Fixpoint lstrip (c : byte) (x : bytes) : bytes :=
  match x with
  | d :: x' => if Byte.eqb c d then lstrip c x' else x
  | [] => []
  end.

Definition rstrip (c : byte) (x : bytes) : bytes :=
  rev (lstrip c (rev x)).

Definition strip (c : byte) (x : bytes) : bytes := rstrip c (lstrip c x).

(** [int(x)] on a byte or character string, base 10, as MicroPython's
    number parser reads it: leading white space is skipped, then an optional
    sign; then digits are read, every underscore being passed over; at
    least one digit or underscore must have been read; after trailing white
    space the text must be at its end.  [None] stands for [ValueError]. *)
Definition is_space (c : byte) : bool :=
  match c with
  | x09 | x0a | x0b | x0c | x0d | x20 => true
  | _ => false
  end.

Definition digit_val (c : byte) : option Z :=
  match c with
  | x30 => Some 0 | x31 => Some 1 | x32 => Some 2 | x33 => Some 3
  | x34 => Some 4 | x35 => Some 5 | x36 => Some 6 | x37 => Some 7
  | x38 => Some 8 | x39 => Some 9
  | _ => None
  end.

Fixpoint lstrip_space (x : bytes) : bytes :=
  match x with
  | c :: x' => if is_space c then lstrip_space x' else x
  | [] => []
  end.

(** The digit loop: the value read so far and the text left where the loop
    stops. *)
Fixpoint scan_digits (acc : Z) (x : bytes) : Z * bytes :=
  match x with
  | [] => (acc, [])
  | c :: x' =>
      match digit_val c with
      | Some d => scan_digits (10 * acc + d) x'
      | None => if Byte.eqb c x5f then scan_digits acc x' else (acc, x)
      end
  end.

Definition int (x : bytes) : option Z :=
  let x1 := lstrip_space x in
  let '(neg, x2) :=
    match x1 with
    | x2b :: r => (false, r)
    | x2d :: r => (true, r)
    | _ => (false, x1)
    end in
  let '(v, rest) := scan_digits 0 x2 in
  if (List.length rest =? List.length x2)%nat then None
  else
    match lstrip_space rest with
    | [] => Some (if neg then - v else v)
    | _ :: _ => None
    end.

(** The check [str(b, "utf-8")] makes before it builds the string, as
    MicroPython has it: a byte below 0x80 stands alone, a byte from 0xC0 to
    0xF7 opens a group and is followed by one, two or three bytes from 0x80
    to 0xBF, and the text does not end inside a group.  Where the check
    fails [str] raises [UnicodeError]. *)
Definition is_cont (c : byte) : bool :=
  let n := Byte.to_N c in
  ((128 <=? n) && (n <? 192))%N.

Definition lead_need (c : byte) : option nat :=
  let n := Byte.to_N c in
  if (n <? 128)%N then Some 0%nat
  else if (n <? 192)%N then None
  else if (n <? 224)%N then Some 1%nat
  else if (n <? 240)%N then Some 2%nat
  else if (n <? 248)%N then Some 3%nat
  else None.

Fixpoint utf8_check_from (need : nat) (x : bytes) : bool :=
  match x with
  | [] => (need =? 0)%nat
  | c :: x' =>
      match need with
      | S k => is_cont c && utf8_check_from k x'
      | O =>
          match lead_need c with
          | Some k => utf8_check_from k x'
          | None => false
          end
      end
  end.

Definition utf8_check (x : bytes) : bool := utf8_check_from 0 x.

End Py.

Import Py.


(* ================================================================== *)
(** ** The transport and the clock

    [machine.UART] and [time] are outside the driver.  [uart_any] is the
    number of bytes waiting, [uart_read n] hands over at most [n] of them.
    Every operation may change the device state (time passes, bytes
    arrive). *)

Class Transport (W : Type) : Type := {
  uart_write : bytes -> W -> W;
  uart_any : W -> Z * W;
  uart_read : Z -> W -> bytes * W;
  time_time : W -> Z * W;
  time_sleep : Z -> W -> W
}.

(** Python exceptions the driver can raise. *)
Inductive Exn : Type :=
| Exception (msg : string)
| RuntimeError (msg : string)
| ValueError
| UnicodeError
| AttributeError (name : string).

Inductive Res (A : Type) : Type :=
| Ret (a : A)
| Raise (e : Exn).
Arguments Ret {A} a.
Arguments Raise {A} e.

(** Values of mixed type held in the lists the decoders return. *)
Inductive Value : Type :=
| VNone
| VInt (n : Z)
| VStr (s : string).

Definition Value_eqb (a b : Value) : bool :=
  match a, b with
  | VNone, VNone => true
  | VInt n, VInt m => n =? m
  | VStr s, VStr t => String.eqb s t
  | _, _ => false
  end.

(** The instance attributes of an [ESP] object.  [__init__] binds [_debug]
    and [_uart]; the mode setter also reads [_initialized], which no code of
    the class binds: [None] is the unbound attribute. *)
Record ESP : Type := {
  _debug : bool;
  _initialized : option bool
}.

Definition ESP_init (debug : bool) : ESP :=
  {| _debug := debug; _initialized := None |}.

Definition STATUS_APCONNECTED : Z := 2.
Definition STATUS_SOCKETOPEN : Z := 3.
Definition STATUS_SOCKETCLOSED : Z := 4.
Definition STATUS_NOTCONNECTED : Z := 5.
Definition MODE_STATION : Z := 1.
Definition MODE_SOFTAP : Z := 2.
Definition MODE_SOFTAPSTATION : Z := 3.

(** Which statement ends an attempt of [send_at_cmd] (lines 88-98). *)
Inductive Verdict : Type :=
| AcceptWifiGotIp   (* line 89: return response *)
| AcceptPingError   (* line 92: return response *)
| AcceptOK          (* line 98: return response[:-4] *)
| Retry.            (* lines 95-96: sleep and continue *)

Definition OK_CRLF : bytes := lit "OK" ++ CRLF.
Definition ERROR_CRLF : bytes := lit "ERROR" ++ CRLF.
Definition WIFI_GOT_IP : bytes := lit "WIFI GOT IP" ++ CRLF.
Definition WIFI_CONNECTED : bytes := lit "WIFI CONNECTED" ++ CRLF.

(** ["AT+CWJAP=" in at_cmd] and ["AT+PING" in at_cmd] *)
Definition is_join (at_cmd : string) : bool :=
  contains (lit "AT+CWJAP=") (lit at_cmd).
Definition is_ping (at_cmd : string) : bool :=
  contains (lit "AT+PING") (lit at_cmd).

(** The [break] tests of the polling loop, lines 72-83. *)
Definition terminated (at_cmd : string) (response : bytes) : bool :=
  bytes_eqb (last_n 4 response) OK_CRLF
  || bytes_eqb (last_n 7 response) ERROR_CRLF
  || (if is_join at_cmd
      then contains WIFI_GOT_IP response
      else contains WIFI_CONNECTED response)
  || contains (lit "ERR CODE:") response.

(** The tests after the loop, lines 88-98, in the source's order. *)
Definition verdict (at_cmd : string) (response : bytes) : Verdict :=
  if is_join at_cmd && contains WIFI_GOT_IP response then AcceptWifiGotIp
  else if is_ping at_cmd && contains ERROR_CRLF response then AcceptPingError
  else if negb (bytes_eqb (last_n 4 response) OK_CRLF) then Retry
  else AcceptOK.

(** *** Reply decoders (the loops over the lines of a reply) *)

(** [status], lines 150-153 *)
Fixpoint status_scan (replies : list bytes) : Res (option Z) :=
  match replies with
  | [] => Ret None
  | reply :: rest =>
      if startswith (lit "STATUS:") reply then
        match int (slice 7 8 reply) with
        | Some n => Ret (Some n)
        | None => Raise ValueError
        end
      else status_scan rest
  end.

(** Lines 169-174 and 245-250: [str(val, "utf-8")], which raises
    [UnicodeError] outside the [try]; then [int] of the string, or on
    [ValueError] the string with its quote characters stripped. *)
Definition decode_field (val : bytes) : Res Value :=
  if utf8_check val then
    let s := string_of_list_byte val in
    match int (lit s) with
    | Some n => Ret (VInt n)
    | None => Ret (VStr (string_of_list_byte (strip QUOTE (lit s))))
    end
  else Raise UnicodeError.

(** The loop over the fields, first to last; the first field that raises
    ends it. *)
Fixpoint decode_fields (fields : list bytes) : Res (list Value) :=
  match fields with
  | [] => Ret []
  | val :: rest =>
      match decode_field val with
      | Raise e => Raise e
      | Ret v =>
          match decode_fields rest with
          | Raise e => Raise e
          | Ret vs => Ret (v :: vs)
          end
      end
  end.

Definition null_AP : list Value := [VNone; VNone; VNone; VNone].

(** [remote_AP], lines 165-178.  The prefix on line 166 is a [str]; a
    MicroPython [startswith] compares the bytes all the same. *)
Fixpoint remote_AP_scan (replies : list bytes) : Res (list Value) :=
  match replies with
  | [] => Ret null_AP
  | reply :: rest =>
      if negb (startswith (lit "+CWJAP:") reply) then remote_AP_scan rest
      else decode_fields (split (lit ",") (from 7 reply))
  end.

(** [mode] getter, lines 183-186 *)
Fixpoint mode_scan (replies : list bytes) : Res Z :=
  match replies with
  | [] => Raise (RuntimeError "Bad response to CWMODE?")
  | reply :: rest =>
      if startswith (lit "+CWMODE:") reply then
        match int (from 8 reply) with
        | Some n => Ret n
        | None => Raise ValueError
        end
      else mode_scan rest
  end.

(** [get_APs], lines 240-251; [routers] is the list built so far. *)
Fixpoint get_APs_scan_from (routers : list (list Value)) (scan : list bytes)
  : Res (list (list Value)) :=
  match scan with
  | [] => Ret routers
  | line :: rest =>
      if startswith (lit "+CWLAP:(") line
      then
        match decode_fields (split (lit ",") (slice_to_last 8 1 line)) with
        | Raise e => Raise e
        | Ret router => get_APs_scan_from (routers ++ [router]) rest
        end
      else get_APs_scan_from routers rest
  end.

Definition get_APs_scan (scan : list bytes) : Res (list (list Value)) :=
  get_APs_scan_from [] scan.

(* ================================================================== *)
(** ** The driver over a transport *)

(** The system: the device behind the UART and everything written to it. *)
Record Sys (W : Type) : Type := {
  dev : W;
  tx : bytes
}.
Arguments dev {W} s.
Arguments tx {W} s.

(** Driver computations: [None] is fuel exhausted in a polling loop. *)
Definition M (W A : Type) : Type := Sys W -> option (Res A * Sys W).

Definition ret {W A} (a : A) : M W A := fun s => Some (Ret a, s).
Definition raise {W A} (e : Exn) : M W A := fun s => Some (Raise e, s).
Definition lift {W A} (r : Res A) : M W A := fun s => Some (r, s).

Definition bind {W A B} (c : M W A) (k : A -> M W B) : M W B :=
  fun s =>
    match c s with
    | None => None
    | Some (Raise e, s') => Some (Raise e, s')
    | Some (Ret a, s') => k a s'
    end.

Notation "x <- c ;; k" := (bind c (fun x => k))
  (at level 61, c at next level, right associativity).
Notation "c ;;; k" := (bind c (fun _ => k))
  (at level 61, right associativity).

Section Driver.

Context {W : Type} {T : Transport W}.

Definition write (b : bytes) (s : Sys W) : Sys W :=
  {| dev := uart_write b (dev s); tx := tx s ++ b |}.

Definition with_dev (s : Sys W) (w : W) : Sys W :=
  {| dev := w; tx := tx s |}.

Definition sleep (d : Z) (s : Sys W) : Sys W :=
  with_dev s (time_sleep d (dev s)).

(** Lines 64-65. *)
Definition transmit (at_cmd : string) (s : Sys W) : Sys W :=
  write CRLF (write (lit at_cmd) s).

(** The [while] loop of lines 69-83. *)
Fixpoint poll_loop (fuel : nat) (at_cmd : string) (timeout stamp : Z)
    (response : bytes) (w : W) : option (bytes * W) :=
  match fuel with
  | O => None
  | S fuel' =>
      let (now, w1) := time_time w in
      if now - stamp <? timeout then
        let (n, w2) := uart_any w1 in
        if n =? 0 then poll_loop fuel' at_cmd timeout stamp response w2
        else
          let (b, w3) := uart_read 1 w2 in
          let response := response ++ b in
          if terminated at_cmd response then Some (response, w3)
          else poll_loop fuel' at_cmd timeout stamp response w3
      else Some (response, w1)
  end.

(** Lines 64-86: one transmission and the reply collected for it. *)
Definition exchange (fuel : nat) (at_cmd : string) (timeout : Z)
    (s : Sys W) : option (bytes * Sys W) :=
  let s1 := transmit at_cmd s in
  let (stamp, w2) := time_time (dev s1) in
  match poll_loop fuel at_cmd timeout stamp [] w2 with
  | None => None
  | Some (response, w3) => Some (response, with_dev s1 w3)
  end.

(** The [for] loop of [send_at_cmd] with [n] rounds left, and line 100. *)
Fixpoint attempts (fuel : nat) (at_cmd : string) (timeout : Z) (n : nat)
    (s : Sys W) : option (Res bytes * Sys W) :=
  match n with
  | O => Some (Raise (Exception ("No OK response to " ++ at_cmd)), s)
  | S n' =>
      match exchange fuel at_cmd timeout s with
      | None => None
      | Some (response, s') =>
          match verdict at_cmd response with
          | AcceptWifiGotIp => Some (Ret response, s')
          | AcceptPingError => Some (Ret response, s')
          | Retry => attempts fuel at_cmd timeout n' (sleep 1 s')
          | AcceptOK => Some (Ret (drop_last 4 response), s')
          end
      end
  end.

Definition send_at_cmd (fuel : nat) (at_cmd : string) (timeout retries : Z)
  : M W bytes :=
  attempts fuel at_cmd timeout (Z.to_nat retries).

(** [status] property, lines 147-153 *)
Definition status (fuel : nat) : M W (option Z) :=
  reply <- send_at_cmd fuel "AT+CIPSTATUS" 5 3 ;;
  lift (status_scan (split CRLF reply)).

(** [stat != self.STATUS_APCONNECTED] *)
Definition is_ap_connected (stat : option Z) : bool :=
  match stat with
  | Some n => n =? STATUS_APCONNECTED
  | None => false
  end.

(** [remote_AP] property, lines 156-178 *)
Definition remote_AP (fuel : nat) : M W (list Value) :=
  stat <- status fuel ;;
  if negb (is_ap_connected stat) then ret null_AP
  else
    reply <- send_at_cmd fuel "AT+CWJAP?" 10 3 ;;
    lift (remote_AP_scan (split CRLF reply)).

(** [mode] getter, lines 181-186 *)
Definition mode (fuel : nat) : M W Z :=
  reply <- send_at_cmd fuel "AT+CWMODE?" 5 3 ;;
  lift (mode_scan (split CRLF reply)).

(** [mode] setter, lines 189-195.  [self.begin] and [self.at_response] are
    names the class does not define: reading them raises before any
    argument is evaluated. *)
Definition mode_setter (self : ESP) (mode : Z) : M W unit :=
  match _initialized self with
  | None => raise (AttributeError "_initialized")
  | Some initialized =>
      (if negb initialized then raise (AttributeError "begin") else ret tt) ;;;
      if negb ((mode =? 1) || (mode =? 2) || (mode =? 3))
      then raise (RuntimeError "Invalid Mode")
      else raise (AttributeError "at_response")
  end.

(** [self.mode != self.MODE_STATION] then [self.mode = self.MODE_STATION],
    lines 210-211 and 235-236 *)
Definition ensure_station (fuel : nat) (self : ESP) : M W unit :=
  m <- mode fuel ;;
  if negb (m =? MODE_STATION) then mode_setter self MODE_STATION else ret tt.

(** ['AT+CWJAP="' + ssid + '","' + password + '"'] *)
Definition join_cmd (ssid password : string) : string :=
  let q := String (ascii_of_byte QUOTE) EmptyString in
  ("AT+CWJAP=" ++ q ++ ssid ++ q ++ "," ++ q ++ password ++ q)%string.

(** [router and router[0] == ssid] *)
Definition already_joined (router : list Value) (ssid : string) : bool :=
  match router with
  | [] => false
  | v :: _ => Value_eqb v (VStr ssid)
  end.

(** [join_ap], lines 206-227; the [for] loop returns in its first round. *)
Definition join_ap (fuel : nat) (self : ESP) (ssid password : string)
  : M W unit :=
  ensure_station fuel self ;;;
  router <- remote_AP fuel ;;
  if already_joined router ssid then ret tt
  else
    _ <- send_at_cmd fuel (join_cmd ssid password) 15 3 ;;
    ret tt.

(** [get_APs], lines 229-252: a [RuntimeError] of the [try] starts the next
    round, any other exception leaves; the scan of the lines stands after
    the [try], so what it raises leaves too; without a round that returns
    the result is Python's [None]. *)
Fixpoint get_APs_rounds (fuel : nat) (self : ESP) (n : nat)
  : M W (option (list (list Value))) :=
  match n with
  | O => ret None
  | S n' =>
      fun s =>
        match (ensure_station fuel self ;;;
               send_at_cmd fuel "AT+CWLAP" 5 3) s with
        | None => None
        | Some (Raise (RuntimeError _), s') => get_APs_rounds fuel self n' s'
        | Some (Raise e, s') => Some (Raise e, s')
        | Some (Ret scan, s') =>
            match get_APs_scan (split CRLF scan) with
            | Raise e => Some (Raise e, s')
            | Ret routers => Some (Ret (Some routers), s')
            end
        end
  end.

Definition get_APs (fuel : nat) (self : ESP) (retries : Z)
  : M W (option (list (list Value))) :=
  get_APs_rounds fuel self (Z.to_nat retries).

End Driver.

(* ================================================================== *)
(** ** Two transports to run the driver on *)

(** A module that answers each command line with the next scripted reply.
    The clock counts polls; [rate] polls make one unit of [time.time()]. *)
Record Scripted : Type := {
  ticks : Z;
  rate : Z;
  inbox : bytes;
  script : list bytes
}.

#[export] Instance Scripted_Transport : Transport Scripted := {
  uart_write b w :=
    if bytes_eqb b CRLF
    then {| ticks := ticks w; rate := rate w;
            inbox := inbox w ++ hd [] (script w); script := tl (script w) |}
    else w;
  uart_any w := (Z.of_nat (List.length (inbox w)), w);
  uart_read n w :=
    (firstn (Z.to_nat n) (inbox w),
     {| ticks := ticks w; rate := rate w;
        inbox := skipn (Z.to_nat n) (inbox w); script := script w |});
  time_time w :=
    (ticks w / rate w,
     {| ticks := ticks w + 1; rate := rate w;
        inbox := inbox w; script := script w |});
  time_sleep d w :=
    {| ticks := ticks w + d * rate w; rate := rate w;
       inbox := inbox w; script := script w |}
}.

Definition module_with (replies : list bytes) : Sys Scripted :=
  {| dev := {| ticks := 0; rate := 100; inbox := []; script := replies |};
     tx := [] |}.

(** A line that stays silent: never a byte, four polls to the time unit. *)
Record Quiet : Type := { quiet_ticks : Z }.

#[export] Instance Quiet_Transport : Transport Quiet := {
  uart_write _ w := w;
  uart_any w := (0, w);
  uart_read _ w := ([], w);
  time_time w := (quiet_ticks w / 4, {| quiet_ticks := quiet_ticks w + 1 |});
  time_sleep d w := {| quiet_ticks := quiet_ticks w + 4 * d |}
}.

Definition silent_line : Sys Quiet :=
  {| dev := {| quiet_ticks := 0 |}; tx := [] |}.


(* ================================================================== *)
(** ** Vocabulary of the statements *)

(** What one transmission puts on the wire, and [k] of them in a row. *)
Definition wire (at_cmd : string) : bytes := lit at_cmd ++ CRLF.

Definition wire_times (k : nat) (at_cmd : string) : bytes :=
  List.concat (repeat (wire at_cmd) k).

(** What a computation wrote: the part of the log after what was there. *)
Definition written {W : Type} (s s' : Sys W) : bytes :=
  skipn (List.length (tx s)) (tx s').

(** One round of the polling loop on a line where no byte is waiting. *)
Definition idle_poll {W : Type} {T : Transport W} (w : W) : W :=
  snd (uart_any (snd (time_time w))).

(** A silent line with a working clock: [uart.any()] is always 0;
    [time.time()] reads a clock [now] that no operation sets back, that
    [time.sleep(d)] advances by [d] at least, and that [polls] idle rounds
    of the loop advance by a unit at least. *)
Class SilentLine {W : Type} (T : Transport W) (now : W -> Z) (polls : nat)
  : Prop := {
  time_reads_clock : forall w, fst (time_time w) = now w;
  time_monotone : forall w, now w <= now (snd (time_time w));
  any_is_zero : forall w, fst (uart_any w) = 0;
  any_monotone : forall w, now w <= now (snd (uart_any w));
  write_monotone : forall b w, now w <= now (uart_write b w);
  sleep_advances : forall d w, now w + d <= now (time_sleep d w);
  polls_advance : forall w, now w + 1 <= now (Nat.iter polls idle_poll w)
}.

(** *** Scenarios *)

Definition OK_line (body : string) : bytes := lit body ++ CRLF ++ CRLF ++ OK_CRLF.

(** Joining: the module reports association and address, then [OK]. *)
Definition join_reply : bytes :=
  lit "WIFI CONNECTED" ++ CRLF ++ WIFI_GOT_IP ++ CRLF ++ OK_CRLF.

(** A ping that fails. *)
Definition ping_reply : bytes := lit "+timeout" ++ CRLF ++ CRLF ++ ERROR_CRLF.

(** An accepted [AT+CIPSTATUS] reply without a [STATUS:] line. *)
Definition busy_reply : bytes := lit "busy p..." ++ CRLF ++ OK_CRLF.

(** The reply to [AT+CWJAP?] of a module associated to [home]. *)
Definition cwjap_reply : bytes :=
  lit "+CWJAP:" ++ [QUOTE] ++ lit "home" ++ [QUOTE] ++ lit ","
    ++ [QUOTE] ++ lit "aa:bb:cc:dd:ee:ff" ++ [QUOTE] ++ lit ",6,-55"
    ++ CRLF ++ CRLF ++ OK_CRLF.

(** A module in station mode, associated to [home], asked twice over. *)
Definition joined_home : Sys Scripted :=
  module_with [OK_line "+CWMODE:1"; OK_line "STATUS:2"; cwjap_reply;
               OK_line "+CWMODE:1"; OK_line "STATUS:2"; cwjap_reply].

(** The command [ping] sends for the host example.org (line 45). *)
Definition ping_cmd : string :=
  let q := String (ascii_of_byte QUOTE) EmptyString in
  ("AT+PING=" ++ q ++ "example.org" ++ q)%string.

(** A module that rejects a command, with and without a note before. *)
Definition plain_error : bytes := ERROR_CRLF.
Definition noted_error : bytes := lit "busy p..." ++ CRLF ++ ERROR_CRLF.

(** The clock of the silent line, in units of [time.time()]. *)
Definition quiet_now (w : Quiet) : Z := quiet_ticks w / 4.

(** The field string 5,-67,"aa:bb:cc:dd:ee:ff",1 *)
Definition sample_fields : bytes :=
  lit "5,-67," ++ [QUOTE] ++ lit "aa:bb:cc:dd:ee:ff" ++ [QUOTE] ++ lit ",1".

(* ================================================================== *)
(** ** The rest of the driver

    [ping], [local_ip], [soft_reset], [is_connected] and [connect], on the
    definitions above. *)

(** [x.strip(chars)] for a set of characters *)
Definition in_chars (chars : bytes) (c : byte) : bool :=
  existsb (Byte.eqb c) chars.

Fixpoint lstrip_chars (chars x : bytes) : bytes :=
  match x with
  | c :: x' => if in_chars chars c then lstrip_chars chars x' else x
  | [] => []
  end.

Definition strip_chars (chars x : bytes) : bytes :=
  rev (lstrip_chars chars (rev (lstrip_chars chars x))).

(** Truth value of a byte string: [if line] *)
Definition nonempty (x : bytes) : bool :=
  match x with
  | [] => false
  | _ :: _ => true
  end.

(** The command text of line 45: the host, stripped of quote characters at
    both ends, between one pair of quotes after [AT+PING=]. *)
Definition ping_command (host : string) : string :=
  let q := String (ascii_of_byte QUOTE) EmptyString in
  ("AT+PING=" ++ q ++ string_of_list_byte (strip QUOTE (lit host)) ++ q)%string.

(** [ping], lines 46-54: the first line that starts with [+] decides; a
    [ValueError] of [int] is caught and turned into [None]. *)
Fixpoint ping_scan (lines : list bytes) : Res (option Z) :=
  match lines with
  | [] => Raise (RuntimeError "Couldn't ping")
  | line :: rest =>
      if nonempty line && startswith (lit "+") line then
        if bytes_eqb (slice 1 5 line) (lit "PING")
        then Ret (int (from 6 line))
        else Ret (int (from 1 line))
      else ping_scan rest
  end.

(** [local_ip], lines 201-204 *)
Definition STAIP_prefix : bytes := lit "+CIFSR:STAIP," ++ [QUOTE].

Fixpoint local_ip_scan (lines : list bytes) : Res string :=
  match lines with
  | [] => Raise (RuntimeError "Couldn't find IP address")
  | line :: rest =>
      if nonempty line && startswith STAIP_prefix line
      then
        if utf8_check (slice_to_last 14 1 line)
        then Ret (string_of_list_byte (slice_to_last 14 1 line))
        else Raise UnicodeError
      else local_ip_scan rest
  end.

(** [state in (2, 3, 4)], lines 137-144; [None] is in no tuple of numbers *)
Definition is_connected_state (state : option Z) : bool :=
  match state with
  | Some n =>
      (n =? STATUS_APCONNECTED) || (n =? STATUS_SOCKETOPEN)
      || (n =? STATUS_SOCKETCLOSED)
  | None => false
  end.

(** The [secrets] dictionary of [connect], with the two keys it reads. *)
Record Secrets : Type := {
  secrets_ssid : string;
  secrets_password : string
}.

Section DriverRest.

Context {W : Type} {T : Transport W}.

(** [ping], lines 42-54; [timeout=5], three rounds by default.
    [uart_bound] is [self._uart != None]: [__init__] leaves [None] there
    when the UART cannot be built, and the first [self._uart.write] of
    [send_at_cmd] (line 64) then raises. *)
Definition ping (fuel : nat) (uart_bound : bool) (host : string)
  : M W (option Z) :=
  if negb uart_bound then raise (AttributeError "write")
  else
    reply <- send_at_cmd fuel (ping_command host) 5 3 ;;
    lift (ping_scan (split CRLF reply)).

(** [local_ip], lines 198-204; the defaults [timeout=20], [retries=3] *)
Definition local_ip (fuel : nat) : M W string :=
  reply <- send_at_cmd fuel "AT+CIFSR" 20 3 ;;
  lift (local_ip_scan (split CRLF (strip_chars CRLF reply))).

(** [soft_reset], lines 118-129; [uart_bound] is [self._uart != None]. *)
Definition soft_reset (fuel : nat) (uart_bound : bool) : M W bool :=
  if negb uart_bound then ret false
  else
    reply <- send_at_cmd fuel "AT+RST" 1 3 ;;
    if bytes_eqb (strip_chars CRLF reply) (lit "AT+RST")
    then fun s => Some (Ret true, sleep 2 s)
    else ret false.

(** [is_connected], lines 132-144 *)
Definition is_connected (fuel : nat) : M W bool :=
  state <- status fuel ;;
  ret (is_connected_state state).

(** The body of the [try] of [connect], lines 109-112.  [AP[0]] is the head
    of a list that [remote_AP] never returns empty. *)
Definition connect_try (fuel : nat) (self : ESP) (secrets : Secrets)
  : M W bool :=
  AP <- remote_AP fuel ;;
  (if negb (Value_eqb (hd VNone AP) (VStr (secrets_ssid secrets)))
   then join_ap fuel self (secrets_ssid secrets) (secrets_password secrets)
   else ret tt) ;;;
  ret true.

(** [connect], lines 102-116: [while True], left by [return True] or by an
    exception that is not a [RuntimeError]; the counter [retries] of the
    source is written and never read.  [rounds] bounds the loop in the
    model, [None] when it runs out. *)
Fixpoint connect (rounds fuel : nat) (self : ESP) (secrets : Secrets)
  : M W bool :=
  match rounds with
  | O => fun _ => None
  | S rounds' =>
      fun s =>
        match connect_try fuel self secrets s with
        | None => None
        | Some (Raise (RuntimeError _), s') =>
            connect rounds' fuel self secrets s'
        | Some (r, s') => Some (r, s')
        end
  end.

End DriverRest.

(** *** More scenarios *)

(** A reply to [AT+CWMODE?] without a [+CWMODE:] line. *)
Definition odd_mode_reply : bytes := lit "busy p..." ++ CRLF ++ OK_CRLF.

(** A module that reports station-and-access-point mode. *)
Definition softap_module : Sys Scripted :=
  module_with [OK_line "+CWMODE:3"].

(** A status of two digits. *)
Definition long_status_reply : bytes := OK_line "STATUS:23".

(** A status line with nothing after the colon. *)
Definition bare_status_reply : bytes := OK_line "STATUS:".

(** A ping answered in 12 ms, in the two forms modules use. *)
Definition ping_plain_reply : bytes := OK_line "+12".
Definition ping_tagged_reply : bytes := OK_line "+PING:12".

(** The reply to [AT+CIFSR] of a module with an address. *)
Definition cifsr_reply : bytes :=
  STAIP_prefix ++ lit "192.168.1.5" ++ [QUOTE] ++ CRLF
    ++ lit "+CIFSR:STAMAC," ++ [QUOTE] ++ lit "aa:bb:cc:dd:ee:ff" ++ [QUOTE]
    ++ CRLF ++ CRLF ++ OK_CRLF.

(** A scan with two networks and a line that is not one. *)
Definition cwlap_reply : bytes :=
  lit "+CWLAP:(3," ++ [QUOTE] ++ lit "home" ++ [QUOTE] ++ lit ",-55)" ++ CRLF
    ++ lit "note" ++ CRLF
    ++ lit "+CWLAP:(0," ++ [QUOTE] ++ lit "cafe" ++ [QUOTE] ++ lit ",-80)"
    ++ CRLF ++ CRLF ++ OK_CRLF.

(** The echo of a reset. *)
Definition rst_reply : bytes := lit "AT+RST" ++ CRLF ++ CRLF ++ OK_CRLF.

Definition home_secrets : Secrets :=
  {| secrets_ssid := "home"; secrets_password := "secret" |}.

(* ================================================================== *)
(** * Properties *)

(** ** Byte strings *)

Lemma bytes_eqb_eq (a b : bytes) : bytes_eqb a b = true <-> a = b.
Proof.
  revert b; induction a as [|c a IH]; intros [|d b]; simpl;
    try (split; [discriminate | discriminate]); try tauto.
  rewrite andb_true_iff, IH. split.
  - intros [Hc Hab]. apply Byte.byte_dec_bl in Hc. congruence.
  - intros E. injection E as -> ->. split; [apply Byte.byte_dec_lb|]; reflexivity.
Qed.

Lemma bytes_eqb_refl (a : bytes) : bytes_eqb a a = true.
Proof. now apply bytes_eqb_eq. Qed.

Lemma contains_nil (sub : bytes) : sub <> [] -> contains sub [] = false.
Proof. destruct sub; [congruence | reflexivity]. Qed.

(** A buffer whose last four bytes are a given word is its [x[:-4]] part
    followed by that word. *)
Lemma drop_last_last_n (n : nat) (x : bytes) :
  drop_last n x ++ last_n n x = x.
Proof. apply firstn_skipn. Qed.

Example split_lines :
  split CRLF (lit "STATUS:2" ++ CRLF ++ CRLF) = [lit "STATUS:2"; []; []].
Proof. reflexivity. Qed.

Example split_empty : split CRLF [] = [[]].
Proof. reflexivity. Qed.

Example int_neg : int (lit "-67") = Some (-67).
Proof. reflexivity. Qed.

Example int_quoted : int (QUOTE :: lit "5" ++ [QUOTE]) = None.
Proof. reflexivity. Qed.

Example strip_all_layers :
  strip QUOTE (QUOTE :: QUOTE :: lit "x" ++ [QUOTE]) = lit "x".
Proof. reflexivity. Qed.

(** ** The command engine on any transport *)

Section Engine.

Context {W : Type} {T : Transport W}.

Lemma send_at_cmd_first (fuel : nat) (at_cmd : string) (timeout retries : Z)
    (s : Sys W) :
  0 < retries ->
  send_at_cmd fuel at_cmd timeout retries s =
  match exchange fuel at_cmd timeout s with
  | None => None
  | Some (response, s') =>
      match verdict at_cmd response with
      | AcceptWifiGotIp | AcceptPingError => Some (Ret response, s')
      | Retry => send_at_cmd fuel at_cmd timeout (retries - 1) (sleep 1 s')
      | AcceptOK => Some (Ret (drop_last 4 response), s')
      end
  end.
Proof.
  intros Hr. unfold send_at_cmd.
  replace (Z.to_nat retries) with (S (Z.to_nat (retries - 1))) by lia.
  reflexivity.
Qed.

(** After a rejected reply the loop goes on as the same function, one round
    less, from the state the sleep leaves: what holds of the first round of
    [send_at_cmd] at any state holds of every round. *)
Lemma send_at_cmd_next_attempt (fuel : nat) (at_cmd : string)
    (timeout retries : Z) (s s' : Sys W) (response : bytes) :
  0 < retries ->
  exchange fuel at_cmd timeout s = Some (response, s') ->
  verdict at_cmd response = Retry ->
  send_at_cmd fuel at_cmd timeout retries s =
  send_at_cmd fuel at_cmd timeout (retries - 1) (sleep 1 s').
Proof.
  intros Hr Hx Hv. rewrite send_at_cmd_first by assumption.
  now rewrite Hx, Hv.
Qed.

(** C1. A join-AP command (its text contains [AT+CWJAP=]) whose collected
    reply contains [WIFI GOT IP] CR LF anywhere is accepted by the first
    test after the loop (line 88): [send_at_cmd] returns the whole buffer,
    unchanged, whatever else the buffer holds ([OK], [ERROR], ...). *)
Theorem join_got_ip_returns_buffer (fuel : nat) (at_cmd : string)
    (timeout retries : Z) (s s' : Sys W) (response : bytes) :
  0 < retries ->
  is_join at_cmd = true ->
  exchange fuel at_cmd timeout s = Some (response, s') ->
  contains WIFI_GOT_IP response = true ->
  verdict at_cmd response = AcceptWifiGotIp /\
  send_at_cmd fuel at_cmd timeout retries s = Some (Ret response, s').
Proof.
  intros Hr Hj Hx Hg.
  assert (Hv : verdict at_cmd response = AcceptWifiGotIp).
  { unfold verdict. now rewrite Hj, Hg. }
  split; [exact Hv|].
  rewrite send_at_cmd_first by assumption. now rewrite Hx, Hv.
Qed.

(** C2. When neither special case applies (not a join-AP command with
    [WIFI GOT IP] in the buffer, not a ping command with [ERROR] in it) and
    the buffer ends in the four bytes [OK] CR LF, [send_at_cmd] returns the
    buffer without exactly these four bytes. *)
Theorem ok_reply_returns_stripped (fuel : nat) (at_cmd : string)
    (timeout retries : Z) (s s' : Sys W) (response : bytes) :
  0 < retries ->
  is_join at_cmd && contains WIFI_GOT_IP response = false ->
  is_ping at_cmd && contains ERROR_CRLF response = false ->
  exchange fuel at_cmd timeout s = Some (response, s') ->
  last_n 4 response = OK_CRLF ->
  exists payload : bytes,
    response = payload ++ OK_CRLF /\
    verdict at_cmd response = AcceptOK /\
    send_at_cmd fuel at_cmd timeout retries s = Some (Ret payload, s').
Proof.
  intros Hr Hj Hp Hx Hok.
  exists (drop_last 4 response).
  assert (Hv : verdict at_cmd response = AcceptOK).
  { unfold verdict. now rewrite Hj, Hp, Hok, bytes_eqb_refl. }
  split; [|split].
  - rewrite <- Hok. symmetry. apply drop_last_last_n.
  - exact Hv.
  - rewrite send_at_cmd_first by assumption. now rewrite Hx, Hv.
Qed.

(** C3. A ping command (its text contains [AT+PING]) that is not a join-AP
    command and whose collected reply contains [ERROR] CR LF is accepted by
    the second test after the loop (line 91): [send_at_cmd] returns the
    whole buffer in this very round; it neither retries nor raises. *)
Theorem ping_error_returns_buffer (fuel : nat) (at_cmd : string)
    (timeout retries : Z) (s s' : Sys W) (response : bytes) :
  0 < retries ->
  is_ping at_cmd = true ->
  is_join at_cmd = false ->
  exchange fuel at_cmd timeout s = Some (response, s') ->
  contains ERROR_CRLF response = true ->
  verdict at_cmd response = AcceptPingError /\
  send_at_cmd fuel at_cmd timeout retries s = Some (Ret response, s').
Proof.
  intros Hr Hp Hj Hx He.
  assert (Hv : verdict at_cmd response = AcceptPingError).
  { unfold verdict. now rewrite Hj, Hp, He. }
  split; [exact Hv|].
  rewrite send_at_cmd_first by assumption. now rewrite Hx, Hv.
Qed.

End Engine.

(** ** Fuel

    A polling loop that ends with some fuel ends the same way with more:
    the fuel only bounds the model, it is not seen by the driver. *)

Section Fuel.

Context {W : Type} {T : Transport W}.

Lemma poll_loop_more_fuel (at_cmd : string) (timeout stamp : Z) (fuel : nat) :
  forall (fuel' : nat) (response : bytes) (w : W) (r : bytes * W),
    poll_loop fuel at_cmd timeout stamp response w = Some r ->
    (fuel <= fuel')%nat ->
    poll_loop fuel' at_cmd timeout stamp response w = Some r.
Proof.
  induction fuel as [|fuel IH]; intros [|fuel'] response w r; simpl;
    try discriminate; try lia.
  intros H Hle.
  destruct (time_time w) as [t w1].
  destruct (t - stamp <? timeout); [|exact H].
  destruct (uart_any w1) as [n w2].
  destruct (n =? 0).
  - apply IH; [exact H | lia].
  - destruct (uart_read 1 w2) as [b w3].
    destruct (terminated at_cmd (response ++ b)); [exact H|].
    apply IH; [exact H | lia].
Qed.

Lemma exchange_more_fuel (at_cmd : string) (timeout : Z) (fuel fuel' : nat)
    (s : Sys W) (r : bytes * Sys W) :
  exchange fuel at_cmd timeout s = Some r ->
  (fuel <= fuel')%nat ->
  exchange fuel' at_cmd timeout s = Some r.
Proof.
  unfold exchange. destruct (time_time _) as [stamp w2].
  destruct (poll_loop fuel _ _ _ _ _) as [[response w3]|] eqn:E;
    [|discriminate].
  intros H Hle.
  now rewrite (poll_loop_more_fuel _ _ _ _ _ _ _ _ E Hle).
Qed.

Lemma attempts_more_fuel (at_cmd : string) (timeout : Z) (fuel fuel' : nat)
    (n : nat) :
  (fuel <= fuel')%nat ->
  forall (s : Sys W) (r : Res bytes * Sys W),
    attempts fuel at_cmd timeout n s = Some r ->
    attempts fuel' at_cmd timeout n s = Some r.
Proof.
  intros Hle. induction n as [|n IH]; intros s r; simpl; [trivial|].
  destruct (exchange fuel at_cmd timeout s) as [[response s1]|] eqn:E;
    [|discriminate].
  rewrite (exchange_more_fuel _ _ _ _ _ _ E Hle).
  destruct (verdict at_cmd response); trivial. apply IH.
Qed.

End Fuel.

(** ** What the engine writes, and how it fails *)

Section Traffic.

Context {W : Type} {T : Transport W}.

Lemma wire_times_S (k : nat) (at_cmd : string) :
  wire_times (S k) at_cmd = wire at_cmd ++ wire_times k at_cmd.
Proof. reflexivity. Qed.

Lemma written_app (s s' : Sys W) (b : bytes) :
  tx s' = tx s ++ b -> written s s' = b.
Proof.
  intros E. unfold written. rewrite E, skipn_app, skipn_all, Nat.sub_diag.
  reflexivity.
Qed.

Lemma exchange_tx (fuel : nat) (at_cmd : string) (timeout : Z)
    (s s' : Sys W) (response : bytes) :
  exchange fuel at_cmd timeout s = Some (response, s') ->
  tx s' = tx s ++ wire at_cmd.
Proof.
  unfold exchange. destruct (time_time _) as [stamp w2].
  destruct (poll_loop _ _ _ _ _ _) as [[r w3]|]; [|discriminate].
  intros E. injection E as _ <-. simpl. unfold wire. now rewrite app_assoc.
Qed.

(** Each round transmits the command once and nothing else: whatever the
    outcome, the log grew by between one and [n] copies of the command. *)
Lemma attempts_tx (fuel : nat) (at_cmd : string) (timeout : Z) (n : nat) :
  forall (s s' : Sys W) (r : Res bytes),
    attempts fuel at_cmd timeout n s = Some (r, s') ->
    exists k : nat,
      (k <= n)%nat /\ (1 <= n -> 1 <= k)%nat /\
      tx s' = tx s ++ wire_times k at_cmd.
Proof.
  induction n as [|n IH]; intros s s' r; simpl.
  - intros E. injection E as _ <-. exists 0%nat.
    repeat split; [lia | lia | unfold wire_times; simpl; now rewrite app_nil_r].
  - destruct (exchange fuel at_cmd timeout s) as [[response s1]|] eqn:Hx;
      [|discriminate].
    apply exchange_tx in Hx.
    destruct (verdict at_cmd response).
    1-3: intros E; injection E as _ <-; exists 1%nat;
         repeat split; try lia; rewrite Hx; unfold wire_times; simpl;
         now rewrite app_nil_r.
    intros E. apply IH in E. destruct E as (k & Hk & _ & Htx).
    exists (S k). repeat split; try lia.
    rewrite Htx. simpl. rewrite Hx, wire_times_S. now rewrite app_assoc.
Qed.

Lemma send_at_cmd_tx (fuel : nat) (at_cmd : string) (timeout retries : Z)
    (s s' : Sys W) (r : Res bytes) :
  0 < retries ->
  send_at_cmd fuel at_cmd timeout retries s = Some (r, s') ->
  exists k : nat,
    (1 <= k <= Z.to_nat retries)%nat /\ tx s' = tx s ++ wire_times k at_cmd.
Proof.
  intros Hr E. apply attempts_tx in E. destruct E as (k & Hk & Hk1 & Htx).
  exists k. split; [lia | exact Htx].
Qed.

Lemma attempts_raise (fuel : nat) (at_cmd : string) (timeout : Z) (n : nat) :
  forall (s s' : Sys W) (e : Exn),
    attempts fuel at_cmd timeout n s = Some (Raise e, s') ->
    e = Exception ("No OK response to " ++ at_cmd).
Proof.
  induction n as [|n IH]; intros s s' e; simpl.
  - intros E. now injection E as <- _.
  - destruct (exchange fuel at_cmd timeout s) as [[response s1]|];
      [|discriminate].
    destruct (verdict at_cmd response); try discriminate.
    apply IH.
Qed.

(** C5, as the code has it.  When [send_at_cmd] ends without returning a
    reply, what it raises is [Exception("No OK response to " + at_cmd)]: the
    exception is made of the command text alone, the buffer of the last
    round is not in it. *)
Theorem exhausted_raises_command_text (fuel : nat) (at_cmd : string)
    (timeout retries : Z) (s s' : Sys W) (r : Res bytes) :
  send_at_cmd fuel at_cmd timeout retries s = Some (r, s') ->
  (forall payload : bytes, r <> Ret payload) ->
  r = Raise (Exception ("No OK response to " ++ at_cmd)).
Proof.
  intros E Hr. destruct r as [payload|e].
  - now destruct (Hr payload).
  - f_equal. eapply attempts_raise. exact E.
Qed.

End Traffic.

(** ** A line that stays silent *)

Section Silent.

Context {W : Type} {T : Transport W} {now : W -> Z} {polls : nat}
        {L : SilentLine T now polls}.

Lemma idle_poll_monotone (w : W) : now w <= now (idle_poll w).
Proof.
  unfold idle_poll.
  pose proof (time_monotone w). pose proof (any_monotone (snd (time_time w))).
  lia.
Qed.

Lemma idle_polls_monotone (k : nat) (w : W) :
  now w <= now (Nat.iter k idle_poll w).
Proof.
  induction k as [|k IH]; simpl; [lia|].
  pose proof (idle_poll_monotone (Nat.iter k idle_poll w)). lia.
Qed.

Lemma idle_polls_units (m : nat) (w : W) :
  now w + Z.of_nat m <= now (Nat.iter (polls * m) idle_poll w).
Proof.
  induction m as [|m IH].
  - rewrite Nat.mul_0_r. simpl. lia.
  - replace (polls * S m)%nat with (polls + polls * m)%nat by lia.
    rewrite Nat.iter_add.
    pose proof (polls_advance (Nat.iter (polls * m) idle_poll w)). lia.
Qed.

(** The loop leaves through its condition, with the buffer it started
    from, once the clock has reached the deadline. *)
Lemma poll_loop_silent (at_cmd : string) (timeout stamp : Z)
    (response : bytes) (k : nat) :
  forall (fuel : nat) (w : W),
    timeout <= now (Nat.iter k idle_poll w) - stamp ->
    (k < fuel)%nat ->
    exists w' : W,
      poll_loop fuel at_cmd timeout stamp response w = Some (response, w') /\
      stamp + timeout <= now w' /\ now w <= now w'.
Proof.
  induction k as [|k IH]; intros [|fuel] w Hd Hf; try lia; simpl;
    pose proof (time_reads_clock w) as Ht;
    pose proof (time_monotone w) as Hm;
    destruct (time_time w) as [t w1] eqn:E1; simpl in Ht, Hm; subst t.
  - simpl in Hd. destruct (Z.ltb_spec (now w - stamp) timeout); [lia|].
    exists w1. repeat split; lia.
  - destruct (Z.ltb_spec (now w - stamp) timeout).
    + pose proof (any_is_zero w1) as Ha.
      pose proof (any_monotone w1) as Hn.
      destruct (uart_any w1) as [n w2] eqn:E2; simpl in Ha, Hn; subst n.
      simpl. rewrite Nat.iter_succ_r in Hd.
      assert (Ew : idle_poll w = w2).
      { unfold idle_poll. now rewrite E1; simpl; rewrite E2. }
      rewrite Ew in Hd.
      destruct (IH fuel w2 Hd) as (w' & Hp & Hs & Hw); [lia|].
      exists w'. repeat split; [exact Hp | lia | lia].
    + exists w1. repeat split; lia.
Qed.

Lemma exchange_silent (fuel : nat) (at_cmd : string) (timeout : Z)
    (s : Sys W) :
  (polls * Z.to_nat timeout < fuel)%nat ->
  exists s' : Sys W,
    exchange fuel at_cmd timeout s = Some ([], s') /\
    now (dev s) + timeout <= now (dev s') /\
    now (dev s) <= now (dev s') /\
    tx s' = tx s ++ wire at_cmd.
Proof.
  intros Hf. unfold exchange.
  assert (H1 : now (dev s) <= now (dev (transmit at_cmd s))).
  { unfold transmit, write; simpl.
    pose proof (write_monotone (lit at_cmd) (dev s)).
    pose proof (write_monotone CRLF (uart_write (lit at_cmd) (dev s))). lia. }
  assert (Htx : tx (transmit at_cmd s) = tx s ++ wire at_cmd).
  { unfold transmit, write, wire; simpl. now rewrite app_assoc. }
  remember (transmit at_cmd s) as s1 eqn:Es1.
  pose proof (time_reads_clock (dev s1)) as Ht.
  pose proof (time_monotone (dev s1)) as Hm.
  destruct (time_time (dev s1)) as [stamp w2]; simpl in Ht, Hm; subst stamp.
  destruct (poll_loop_silent at_cmd timeout (now (dev s1)) []
              (polls * Z.to_nat timeout) fuel w2) as (w' & Hp & Hs & Hw).
  - pose proof (idle_polls_units (Z.to_nat timeout) w2). lia.
  - exact Hf.
  - rewrite Hp. eexists. split; [reflexivity|]. simpl.
    repeat split; try lia. exact Htx.
Qed.

Lemma verdict_empty (at_cmd : string) : verdict at_cmd [] = Retry.
Proof.
  unfold verdict.
  rewrite (contains_nil WIFI_GOT_IP), (contains_nil ERROR_CRLF)
    by discriminate.
  now rewrite !andb_false_r.
Qed.

(** Every round runs to its deadline and is followed by the sleep of line
    95, the last round included; then line 100 raises. *)
Lemma attempts_silent (fuel : nat) (at_cmd : string) (timeout : Z) (n : nat) :
  (polls * Z.to_nat timeout < fuel)%nat ->
  forall s : Sys W,
    exists s' : Sys W,
      attempts fuel at_cmd timeout n s =
        Some (Raise (Exception ("No OK response to " ++ at_cmd)), s') /\
      now (dev s) + Z.of_nat n * (timeout + 1) <= now (dev s') /\
      now (dev s) + Z.of_nat n <= now (dev s') /\
      tx s' = tx s ++ wire_times n at_cmd.
Proof.
  intros Hf. induction n as [|n IH]; intros s.
  - exists s. simpl. repeat split; try lia. now rewrite app_nil_r.
  - destruct (exchange_silent fuel at_cmd timeout s Hf)
      as (s1 & Hx & Hd & Hm & Htx).
    destruct (IH (sleep 1 s1)) as (s' & Ha & Hn & Hn1 & Htx').
    exists s'. simpl attempts. rewrite Hx, verdict_empty. split; [exact Ha|].
    pose proof (sleep_advances 1 (dev s1)) as Hs.
    simpl in Hn, Hn1, Htx'.
    repeat split; try lia.
    rewrite Htx', Htx, wire_times_S. now rewrite app_assoc.
Qed.

(** C4, as the code has it.  On a line that never has a byte, [send_at_cmd]
    with [timeout=1] and [retries=3] ends, and it ends by raising
    [Exception("No OK response to " + at_cmd)], the one exception the
    function has for every failure.  The command went out three times; each
    round ran to its deadline and was followed by the sleep of one unit, so
    the clock stands at six units or more past the start, never before the
    third deadline. *)
Theorem silent_line_raises_after_three_deadlines (fuel : nat)
    (at_cmd : string) (s : Sys W) :
  (polls < fuel)%nat ->
  exists s' : Sys W,
    send_at_cmd fuel at_cmd 1 3 s =
      Some (Raise (Exception ("No OK response to " ++ at_cmd)), s') /\
    now (dev s) + 3 * (1 + 1) <= now (dev s') /\
    tx s' = tx s ++ wire_times 3 at_cmd.
Proof.
  intros Hf.
  destruct (attempts_silent fuel at_cmd 1 3) with (s := s)
    as (s' & Ha & Hn & _ & Htx).
  - change (Z.to_nat 1) with 1%nat. lia.
  - exists s'. split; [exact Ha|]. split; [lia | exact Htx].
Qed.

End Silent.

(** ** Status, access point, mode and join *)

Section Manager.

Context {W : Type} {T : Transport W}.

Lemma bind_inv {A B : Type} (c : M W A) (k : A -> M W B) (s s' : Sys W)
    (r : Res B) :
  bind c k s = Some (r, s') ->
  (exists e, c s = Some (Raise e, s') /\ r = Raise e) \/
  (exists a s1, c s = Some (Ret a, s1) /\ k a s1 = Some (r, s')).
Proof.
  unfold bind. destruct (c s) as [[[a|e] s1]|]; try discriminate.
  - intros E. right. now exists a, s1.
  - intros E. injection E as <- <-. left. now exists e.
Qed.

Lemma status_scan_no_line (replies : list bytes) :
  (forall reply, In reply replies ->
                 startswith (lit "STATUS:") reply = false) ->
  status_scan replies = Ret None.
Proof.
  induction replies as [|reply rest IH]; intros H; [reflexivity|].
  cbn [status_scan]. rewrite (H reply) by now left.
  apply IH. intros r Hr. apply H. now right.
Qed.

(** C6, as the code has it.  When the accepted reply to [AT+CIPSTATUS] has
    no line that starts with [STATUS:], the [status] property returns
    Python's [None] (line 153); it raises nothing. *)
Theorem status_without_line_returns_None (fuel : nat) (s s' : Sys W)
    (reply : bytes) :
  send_at_cmd fuel "AT+CIPSTATUS" 5 3 s = Some (Ret reply, s') ->
  (forall line, In line (split CRLF reply) ->
                startswith (lit "STATUS:") line = false) ->
  status fuel s = Some (Ret None, s').
Proof.
  intros Hs Hl. unfold status, bind, lift. rewrite Hs.
  now rewrite status_scan_no_line.
Qed.

Lemma status_tx (fuel : nat) (s s' : Sys W) (r : Res (option Z)) :
  status fuel s = Some (r, s') ->
  exists k : nat,
    (1 <= k <= 3)%nat /\ tx s' = tx s ++ wire_times k "AT+CIPSTATUS".
Proof.
  unfold status, bind, lift.
  destruct (send_at_cmd fuel "AT+CIPSTATUS" 5 3 s) as [[[reply|e] s1]|] eqn:E;
    try discriminate; intros H; injection H as _ <-;
    apply send_at_cmd_tx in E; try lia; exact E.
Qed.

Lemma mode_tx (fuel : nat) (s s' : Sys W) (r : Res Z) :
  mode fuel s = Some (r, s') ->
  exists k : nat,
    (1 <= k <= 3)%nat /\ tx s' = tx s ++ wire_times k "AT+CWMODE?".
Proof.
  unfold mode, bind, lift.
  destruct (send_at_cmd fuel "AT+CWMODE?" 5 3 s) as [[[reply|e] s1]|] eqn:E;
    try discriminate; intros H; injection H as _ <-;
    apply send_at_cmd_tx in E; try lia; exact E.
Qed.

Lemma remote_AP_tx (fuel : nat) (s s' : Sys W) (r : Res (list Value)) :
  remote_AP fuel s = Some (r, s') ->
  exists k j : nat,
    (1 <= k <= 3)%nat /\ (j <= 3)%nat /\
    tx s' = tx s ++ wire_times k "AT+CIPSTATUS" ++ wire_times j "AT+CWJAP?" /\
    (j = 0%nat -> forall router, r = Ret router -> router = null_AP).
Proof.
  unfold remote_AP. intros H. apply bind_inv in H.
  destruct H as [(e & Hs & He) | (stat & s1 & Hs & H)];
    apply status_tx in Hs; destruct Hs as (k & Hk & Hs).
  - exists k, 0%nat. repeat split; try lia.
    + unfold wire_times at 2; simpl. now rewrite app_nil_r.
    + intros _ router E. congruence.
  - destruct (negb (is_ap_connected stat)).
    + injection H as <- <-. exists k, 0%nat. repeat split; try lia.
      * unfold wire_times at 2; simpl. now rewrite app_nil_r.
      * intros _ router E. now injection E as <-.
    + unfold bind, lift in H.
      destruct (send_at_cmd fuel "AT+CWJAP?" 10 3 s1)
        as [[[reply|e] s2]|] eqn:E; try discriminate;
        injection H as _ <-; apply send_at_cmd_tx in E; try lia;
        destruct E as (j & Hj & E); exists k, j;
        (repeat split; try lia);
        rewrite E, Hs; now rewrite app_assoc.
Qed.

(** C7, as the code has it.  [remote_AP] first asks for the status, which
    puts [AT+CIPSTATUS] on the wire (once per round of that command).  When
    the status it gets is not 2 ([None] included) it returns four [None]s
    and leaves the system as the status query left it: nothing else is
    written, [AT+CWJAP?] in particular is not. *)
Theorem remote_AP_not_connected (fuel : nat) (s s' : Sys W)
    (stat : option Z) :
  status fuel s = Some (Ret stat, s') ->
  stat <> Some STATUS_APCONNECTED ->
  remote_AP fuel s = Some (Ret null_AP, s') /\
  (exists k : nat,
     (1 <= k <= 3)%nat /\ written s s' = wire_times k "AT+CIPSTATUS") /\
  contains (lit "AT+CWJAP?") (written s s') = false.
Proof.
  intros Hs Hn.
  assert (Hc : is_ap_connected stat = false).
  { destruct stat as [n|]; [|reflexivity]. simpl.
    apply Z.eqb_neq. intros ->. now apply Hn. }
  split; [|].
  - unfold remote_AP, bind. now rewrite Hs, Hc.
  - apply status_tx in Hs. destruct Hs as (k & Hk & Htx).
    rewrite (written_app _ _ _ Htx). split; [now exists k|].
    destruct k as [|[|[|[|k]]]]; try lia; reflexivity.
Qed.

(** C9 on the code.  The first thing the mode setter does is read
    [self._initialized], which [__init__] never binds: on a constructed
    object every call, whatever the mode, raises [AttributeError] there and
    nothing reaches the transport.  Were the attribute bound from outside,
    the setter would still end in an exception before any write ([begin] and
    [at_response] are not methods of the class), so no object makes it issue
    [AT+CWMODE=]. *)
Theorem mode_setter_never_issues (debug : bool) (self : ESP) (m : Z)
    (s : Sys W) :
  mode_setter (ESP_init debug) m s =
    Some (Raise (AttributeError "_initialized"), s) /\
  exists e : Exn, mode_setter self m s = Some (Raise e, s).
Proof.
  split; [reflexivity|].
  unfold mode_setter.
  destruct (_initialized self) as [[|]|]; unfold bind, raise, ret; simpl.
  - destruct (negb _); eexists; reflexivity.
  - eexists; reflexivity.
  - eexists; reflexivity.
Qed.

(** C8, as the code has it.  When the module reports station mode and the
    access point that [remote_AP] reports first names [ssid], [join_ap]
    returns at line 215 and leaves the system as the two queries left it.
    The call was not free of traffic: it wrote the three queries
    [AT+CWMODE?], [AT+CIPSTATUS] and [AT+CWJAP?], in this order, each once
    per round of its command (one to three times), and nothing else; no
    join command [AT+CWJAP=] was written. *)
Theorem join_ap_already_joined (fuel : nat) (self : ESP)
    (ssid password : string) (s s1 s2 : Sys W) (router : list Value) :
  mode fuel s = Some (Ret MODE_STATION, s1) ->
  remote_AP fuel s1 = Some (Ret router, s2) ->
  already_joined router ssid = true ->
  join_ap fuel self ssid password s = Some (Ret tt, s2) /\
  (exists i k j : nat,
     (1 <= i <= 3)%nat /\ (1 <= k <= 3)%nat /\ (1 <= j <= 3)%nat /\
     written s s2 =
       wire_times i "AT+CWMODE?" ++ wire_times k "AT+CIPSTATUS"
         ++ wire_times j "AT+CWJAP?") /\
  contains (lit "AT+CWJAP=") (written s s2) = false.
Proof.
  intros Hm Hr Hj.
  assert (Hw : exists i k j : nat,
             (1 <= i <= 3)%nat /\ (1 <= k <= 3)%nat /\ (1 <= j <= 3)%nat /\
             written s s2 =
               wire_times i "AT+CWMODE?" ++ wire_times k "AT+CIPSTATUS"
                 ++ wire_times j "AT+CWJAP?").
  { apply mode_tx in Hm. destruct Hm as (i & Hi & Hm).
    apply remote_AP_tx in Hr. destruct Hr as (k & j & Hk & Hj' & Hr & Hn).
    exists i, k, j. repeat split; try lia.
    - destruct j as [|j]; [|lia].
      rewrite (Hn eq_refl router eq_refl) in Hj. discriminate.
    - rewrite Hm, <- app_assoc in Hr. exact (written_app _ _ _ Hr). }
  split; [|split; [exact Hw|]].
  - unfold join_ap, ensure_station, bind. rewrite Hm. simpl.
    unfold ret at 1. now rewrite Hr, Hj.
  - destruct Hw as (i & k & j & Hi & Hk & Hj' & ->).
    destruct i as [|[|[|[|i]]]]; try lia;
      destruct k as [|[|[|[|k]]]]; try lia;
      destruct j as [|[|[|[|j]]]]; try lia; reflexivity.
Qed.

(** The rule of lines 169-174 and 245-250 on any field. *)
Lemma decode_field_rule (val : bytes) :
  decode_field val =
  if utf8_check val then
    match int val with
    | Some n => Ret (VInt n)
    | None => Ret (VStr (string_of_list_byte (strip QUOTE val)))
    end
  else Raise UnicodeError.
Proof.
  unfold decode_field, lit. now rewrite list_byte_of_string_of_list_byte.
Qed.

Lemma lstrip_no_lead (c : byte) (x : bytes) :
  (forall r, x <> c :: r) -> lstrip c x = x.
Proof.
  destruct x as [|d x]; intros H; [reflexivity|]. simpl.
  destruct (Byte.eqb c d) eqn:E; [|reflexivity].
  apply Byte.byte_dec_bl in E. subst d. now destruct (H x).
Qed.

(** Text that opens with a quote is no number. *)
Lemma int_quoted_is_None (x : bytes) : int (QUOTE :: x) = None.
Proof.
  unfold int. cbn [lstrip_space is_space QUOTE scan_digits digit_val].
  change (Byte.eqb QUOTE x5f) with false. cbv iota.
  now rewrite Nat.eqb_refl.
Qed.

Lemma strip_quoted (x : bytes) :
  (forall r, x <> QUOTE :: r) ->
  (forall r, x <> r ++ [QUOTE]) ->
  strip QUOTE (QUOTE :: x ++ [QUOTE]) = x.
Proof.
  intros Hl Hr. unfold strip, rstrip.
  change (lstrip QUOTE (QUOTE :: x ++ [QUOTE]))
    with (lstrip QUOTE (x ++ [QUOTE])).
  destruct x as [|d x]; [reflexivity|].
  rewrite (lstrip_no_lead QUOTE ((d :: x) ++ [QUOTE])).
  - rewrite rev_app_distr.
    change (lstrip QUOTE (rev [QUOTE] ++ rev (d :: x)))
      with (lstrip QUOTE (rev (d :: x))).
    rewrite lstrip_no_lead; [apply rev_involutive|].
    intros r E. apply (Hr (rev r)).
    rewrite <- (rev_involutive (d :: x)), E. reflexivity.
  - intros r E. injection E as -> _. now destruct (Hl x).
Qed.

(** A field in one pair of quotes is kept as the string between them, when
    its bytes pass the check of [str]. *)
Lemma decode_field_quoted (x : bytes) :
  (forall r, x <> QUOTE :: r) ->
  (forall r, x <> r ++ [QUOTE]) ->
  decode_field (QUOTE :: x ++ [QUOTE]) =
  if utf8_check (QUOTE :: x ++ [QUOTE])
  then Ret (VStr (string_of_list_byte x))
  else Raise UnicodeError.
Proof.
  intros Hl Hr. rewrite decode_field_rule, int_quoted_is_None.
  now rewrite (strip_quoted x Hl Hr).
Qed.

(** C10.  The field string 5,-67,"aa:bb:cc:dd:ee:ff",1 split at the commas
    and decoded field by field is the list 5, -67, the string
    aa:bb:cc:dd:ee:ff without its quotes, 1; the AP-info scan of a
    [+CWJAP:] line and the scan-list scan of a [+CWLAP:(...)] line decode
    it the same way. *)
Theorem sample_fields_decoded :
  let decoded := [VInt 5; VInt (-67); VStr "aa:bb:cc:dd:ee:ff"; VInt 1] in
  decode_fields (split (lit ",") sample_fields) = Ret decoded /\
  remote_AP_scan [lit "+CWJAP:" ++ sample_fields] = Ret decoded /\
  get_APs_scan [lit "+CWLAP:(" ++ sample_fields ++ lit ")"] = Ret [decoded].
Proof. repeat split. Qed.

End Manager.

(* ================================================================== *)
(** * The driver on the two transports *)

Lemma Quiet_SilentLine : SilentLine Quiet_Transport quiet_now 4.
Proof.
  constructor; unfold quiet_now; intros;
    cbv [idle_poll Nat.iter nat_rect time_time uart_any uart_write time_sleep
         Quiet_Transport fst snd quiet_ticks];
    try lia.
  - destruct w as [t]. apply Z.div_le_mono; lia.
  - destruct w as [t].
    replace (t + 4 * d) with (t + d * 4) by lia.
    rewrite Z.div_add by lia. lia.
  - destruct w as [t].
    replace (t + 1 + 1 + 1 + 1) with (t + 1 * 4) by lia.
    rewrite Z.div_add by lia. lia.
Qed.

(** C1 on the scripted module: the join command for [home] is answered by
    WIFI CONNECTED, WIFI GOT IP, OK; the loop stops at WIFI GOT IP and the
    buffer comes back whole. *)
Lemma join_got_ip_witness :
  exists s' : Sys Scripted,
    0 < 3 /\
    is_join (join_cmd "home" "secret") = true /\
    exchange 200 (join_cmd "home" "secret") 15 (module_with [join_reply]) =
      Some (lit "WIFI CONNECTED" ++ CRLF ++ WIFI_GOT_IP, s') /\
    contains WIFI_GOT_IP (lit "WIFI CONNECTED" ++ CRLF ++ WIFI_GOT_IP) = true /\
    verdict (join_cmd "home" "secret")
      (lit "WIFI CONNECTED" ++ CRLF ++ WIFI_GOT_IP) = AcceptWifiGotIp /\
    send_at_cmd 200 (join_cmd "home" "secret") 15 3 (module_with [join_reply]) =
      Some (Ret (lit "WIFI CONNECTED" ++ CRLF ++ WIFI_GOT_IP), s').
Proof.
  eexists.
  assert (Hx : exchange 200 (join_cmd "home" "secret") 15
                 (module_with [join_reply]) =
               Some (lit "WIFI CONNECTED" ++ CRLF ++ WIFI_GOT_IP, _))
    by (vm_compute; reflexivity).
  split; [lia|]. split; [reflexivity|]. split; [exact Hx|].
  split; [reflexivity|].
  apply (join_got_ip_returns_buffer 200 (join_cmd "home" "secret") 15 3
           (module_with [join_reply]) _ _);
    [lia | reflexivity | exact Hx | reflexivity].
Defined.

(** C2 on the scripted module: the reply to [AT+CIPSTATUS] ends in OK CR LF
    and comes back without these four bytes. *)
Lemma ok_reply_witness :
  exists s' : Sys Scripted,
    0 < 3 /\
    exchange 600 "AT+CIPSTATUS" 5 (module_with [OK_line "STATUS:2"]) =
      Some (OK_line "STATUS:2", s') /\
    last_n 4 (OK_line "STATUS:2") = OK_CRLF /\
    exists payload : bytes,
      OK_line "STATUS:2" = payload ++ OK_CRLF /\
      verdict "AT+CIPSTATUS" (OK_line "STATUS:2") = AcceptOK /\
      send_at_cmd 600 "AT+CIPSTATUS" 5 3 (module_with [OK_line "STATUS:2"]) =
        Some (Ret payload, s').
Proof.
  eexists.
  assert (Hx : exchange 600 "AT+CIPSTATUS" 5 (module_with [OK_line "STATUS:2"])
               = Some (OK_line "STATUS:2", _))
    by (vm_compute; reflexivity).
  split; [lia|]. split; [exact Hx|]. split; [reflexivity|].
  apply (ok_reply_returns_stripped 600 "AT+CIPSTATUS" 5 3
           (module_with [OK_line "STATUS:2"]) _ _);
    [lia | reflexivity | reflexivity | exact Hx | reflexivity].
Defined.

(** C3 on the scripted module: a ping answered by +timeout and ERROR. *)
Lemma ping_error_witness :
  exists s' : Sys Scripted,
    0 < 3 /\
    is_ping ping_cmd = true /\
    is_join ping_cmd = false /\
    exchange 600 ping_cmd 5 (module_with [ping_reply]) =
      Some (ping_reply, s') /\
    contains ERROR_CRLF ping_reply = true /\
    verdict ping_cmd ping_reply = AcceptPingError /\
    send_at_cmd 600 ping_cmd 5 3 (module_with [ping_reply]) =
      Some (Ret ping_reply, s').
Proof.
  eexists.
  assert (Hx : exchange 600 ping_cmd 5 (module_with [ping_reply])
               = Some (ping_reply, _))
    by (vm_compute; reflexivity).
  split; [lia|]. split; [reflexivity|]. split; [reflexivity|].
  split; [exact Hx|]. split; [reflexivity|].
  apply (ping_error_returns_buffer 600 ping_cmd 5 3
           (module_with [ping_reply]) _ _);
    [lia | reflexivity | reflexivity | exact Hx | reflexivity].
Defined.

(** C4 on the silent line: four polls to the unit, so five rounds of fuel
    and more are enough for each polling loop. *)
Lemma silent_line_witness :
  SilentLine Quiet_Transport quiet_now 4 /\
  (4 < 5)%nat /\
  exists s' : Sys Quiet,
    send_at_cmd 5 "AT" 1 3 silent_line =
      Some (Raise (Exception "No OK response to AT"), s') /\
    quiet_now (dev silent_line) + 3 * (1 + 1) <= quiet_now (dev s') /\
    tx s' = tx silent_line ++ wire_times 3 "AT".
Proof.
  split; [exact Quiet_SilentLine|]. split; [lia|].
  apply (silent_line_raises_after_three_deadlines (L := Quiet_SilentLine)
           5 "AT" silent_line).
  lia.
Defined.

(** C4 as stated does not hold: the line that never answers and the module
    that answers every round with ERROR end [send_at_cmd] in one and the
    same outcome; the caller is given nothing to tell a timeout from a
    rejected command. *)
Lemma timeout_raises_like_rejection :
  option_map fst (send_at_cmd 5 "AT" 1 3 silent_line) =
    Some (Raise (Exception "No OK response to AT")) /\
  option_map fst
    (send_at_cmd 200 "AT" 1 3
       (module_with [plain_error; plain_error; plain_error])) =
    Some (Raise (Exception "No OK response to AT")).
Proof. split; vm_compute; reflexivity. Qed.

(** C5 on the scripted module: three rejected rounds. *)
Lemma exhausted_witness :
  exists s' : Sys Scripted,
    send_at_cmd 600 "AT+CIFSR" 5 3
      (module_with [plain_error; noted_error; noted_error]) =
      Some (Raise (Exception "No OK response to AT+CIFSR"), s') /\
    (forall payload : bytes,
        Raise (Exception "No OK response to AT+CIFSR") <> Ret payload) /\
    @Raise bytes (Exception "No OK response to AT+CIFSR") =
      Raise (Exception ("No OK response to " ++ "AT+CIFSR")).
Proof.
  eexists.
  assert (Hs : send_at_cmd 600 "AT+CIFSR" 5 3
                 (module_with [plain_error; noted_error; noted_error]) =
               Some (Raise (Exception "No OK response to AT+CIFSR"), _))
    by (vm_compute; reflexivity).
  split; [exact Hs|]. split; [intros payload; discriminate|].
  apply (exhausted_raises_command_text 600 "AT+CIFSR" 5 3 _ _ _ Hs).
  intros payload; discriminate.
Defined.

(** C5 as stated does not hold: with one round allowed, two modules whose
    last (and only) buffers differ leave [send_at_cmd] with the same
    outcome, so the outcome does not hold the buffer. *)
Lemma exhausted_outcome_drops_buffer :
  exists sA sB : Sys Scripted,
    exchange 600 "AT+CIFSR" 5 (module_with [plain_error]) =
      Some (plain_error, sA) /\
    exchange 600 "AT+CIFSR" 5 (module_with [noted_error]) =
      Some (noted_error, sB) /\
    plain_error <> noted_error /\
    option_map fst (send_at_cmd 600 "AT+CIFSR" 5 1 (module_with [plain_error]))
      = Some (Raise (Exception "No OK response to AT+CIFSR")) /\
    option_map fst (send_at_cmd 600 "AT+CIFSR" 5 1 (module_with [noted_error]))
      = Some (Raise (Exception "No OK response to AT+CIFSR")).
Proof.
  eexists. eexists.
  split; [vm_compute; reflexivity|].
  split; [vm_compute; reflexivity|].
  split; [discriminate|].
  split; vm_compute; reflexivity.
Qed.

(** C6 on the scripted module: an accepted reply made of a note only. *)
Lemma status_without_line_witness :
  exists s' : Sys Scripted,
    send_at_cmd 600 "AT+CIPSTATUS" 5 3 (module_with [busy_reply]) =
      Some (Ret (lit "busy p..." ++ CRLF), s') /\
    (forall line, In line (split CRLF (lit "busy p..." ++ CRLF)) ->
                  startswith (lit "STATUS:") line = false) /\
    status 600 (module_with [busy_reply]) = Some (Ret None, s').
Proof.
  eexists.
  assert (Hs : send_at_cmd 600 "AT+CIPSTATUS" 5 3 (module_with [busy_reply]) =
               Some (Ret (lit "busy p..." ++ CRLF), _))
    by (vm_compute; reflexivity).
  assert (Hl : forall line, In line (split CRLF (lit "busy p..." ++ CRLF)) ->
                            startswith (lit "STATUS:") line = false).
  { intros line [<-|[<-|[]]]; reflexivity. }
  split; [exact Hs|]. split; [exact Hl|].
  apply (status_without_line_returns_None 600 _ _ _ Hs Hl).
Defined.

(** C6 as stated does not hold: the reply is accepted, none of its lines
    starts with STATUS:, and [status] returns [None] without raising. *)
Lemma status_missing_line_is_None :
  option_map fst (send_at_cmd 600 "AT+CIPSTATUS" 5 3 (module_with [busy_reply]))
    = Some (Ret (lit "busy p..." ++ CRLF)) /\
  existsb (startswith (lit "STATUS:")) (split CRLF (lit "busy p..." ++ CRLF))
    = false /\
  option_map fst (status 600 (module_with [busy_reply])) = Some (Ret None).
Proof. repeat split; vm_compute; reflexivity. Qed.

(** C7 on the scripted module: status 5, not connected. *)
Lemma remote_AP_not_connected_witness :
  exists s' : Sys Scripted,
    status 600 (module_with [OK_line "STATUS:5"]) =
      Some (Ret (Some STATUS_NOTCONNECTED), s') /\
    Some STATUS_NOTCONNECTED <> Some STATUS_APCONNECTED /\
    remote_AP 600 (module_with [OK_line "STATUS:5"]) =
      Some (Ret null_AP, s') /\
    (exists k : nat,
       (1 <= k <= 3)%nat /\
       written (module_with [OK_line "STATUS:5"]) s' =
         wire_times k "AT+CIPSTATUS") /\
    contains (lit "AT+CWJAP?")
      (written (module_with [OK_line "STATUS:5"]) s') = false.
Proof.
  eexists.
  assert (Hs : status 600 (module_with [OK_line "STATUS:5"]) =
               Some (Ret (Some STATUS_NOTCONNECTED), _))
    by (vm_compute; reflexivity).
  split; [exact Hs|]. split; [discriminate|].
  apply (remote_AP_not_connected 600 _ _ _ Hs). discriminate.
Defined.

(** C7 as stated does not hold: the query that answers with the four
    [None]s has put a command on the wire, the status command. *)
Lemma remote_AP_issues_status_command :
  exists s' : Sys Scripted,
    remote_AP 600 (module_with [OK_line "STATUS:5"]) =
      Some (Ret null_AP, s') /\
    tx (module_with [OK_line "STATUS:5"]) = [] /\
    tx s' = wire "AT+CIPSTATUS" /\
    tx s' <> [].
Proof.
  eexists. split; [vm_compute; reflexivity|].
  repeat split. discriminate.
Qed.

(** C8 on the scripted module: station mode, associated to [home]. *)
Lemma join_ap_already_joined_witness :
  exists (s1 s2 : Sys Scripted) (router : list Value),
    mode 600 joined_home = Some (Ret MODE_STATION, s1) /\
    remote_AP 600 s1 = Some (Ret router, s2) /\
    already_joined router "home" = true /\
    join_ap 600 (ESP_init false) "home" "secret" joined_home =
      Some (Ret tt, s2) /\
    (exists i k j : nat,
       (1 <= i <= 3)%nat /\ (1 <= k <= 3)%nat /\ (1 <= j <= 3)%nat /\
       written joined_home s2 =
         wire_times i "AT+CWMODE?" ++ wire_times k "AT+CIPSTATUS"
           ++ wire_times j "AT+CWJAP?") /\
    contains (lit "AT+CWJAP=") (written joined_home s2) = false.
Proof.
  eexists. eexists. eexists.
  assert (Hm : mode 600 joined_home = Some (Ret MODE_STATION, _))
    by (vm_compute; reflexivity).
  split; [exact Hm|].
  lazymatch goal with
  | |- ?P /\ _ => assert (Hr : P) by (vm_compute; reflexivity)
  end.
  split; [exact Hr|].
  split; [reflexivity|].
  apply (join_ap_already_joined 600 (ESP_init false) "home" "secret"
           _ _ _ _ Hm Hr).
  reflexivity.
Defined.

(** C8 as stated does not hold: [join_ap] called twice in a row on a module
    already associated to the network returns both times, and the second
    call has written its three queries. *)
Lemma second_join_writes_queries :
  exists s1 s2 : Sys Scripted,
    join_ap 600 (ESP_init false) "home" "secret" joined_home =
      Some (Ret tt, s1) /\
    join_ap 600 (ESP_init false) "home" "secret" s1 = Some (Ret tt, s2) /\
    written s1 s2 =
      wire "AT+CWMODE?" ++ wire "AT+CIPSTATUS" ++ wire "AT+CWJAP?" /\
    written s1 s2 <> [].
Proof.
  eexists. eexists.
  split; [vm_compute; reflexivity|].
  split; [vm_compute; reflexivity|].
  split; [vm_compute; reflexivity|].
  vm_compute. discriminate.
Qed.

(** C9 at two modes on the scripted module: the valid mode 1 and the
    invalid mode 7 end alike, and the wire stays empty. *)
Example mode_setter_on_constructed_object :
  mode_setter (ESP_init false) 1 (module_with []) =
    Some (Raise (AttributeError "_initialized"), module_with []) /\
  mode_setter (ESP_init false) 7 (module_with []) =
    Some (Raise (AttributeError "_initialized"), module_with []) /\
  tx (module_with []) = [].
Proof. repeat split. Qed.

(* ================================================================== *)
(** * Further properties of the driver *)

(** ** The command engine *)

Section EngineMore.

Context {W : Type} {T : Transport W}.

Lemma attempts_tx_exact (fuel : nat) (at_cmd : string) (timeout : Z)
    (n : nat) :
  forall (s s' : Sys W) (r : Res bytes),
    attempts fuel at_cmd timeout n s = Some (r, s') ->
    exists k : nat,
      (k <= n)%nat /\ (1 <= n -> 1 <= k)%nat /\
      tx s' = tx s ++ wire_times k at_cmd /\
      (forall e, r = Raise e -> k = n).
Proof.
  induction n as [|n IH]; intros s s' r; simpl.
  - intros E. injection E as _ <-. exists 0%nat.
    repeat split; try lia. unfold wire_times; simpl. now rewrite app_nil_r.
  - destruct (exchange fuel at_cmd timeout s) as [[response s1]|] eqn:Hx;
      [|discriminate].
    apply exchange_tx in Hx.
    destruct (verdict at_cmd response).
    1-3: intros E; injection E as <- <-; exists 1%nat;
         repeat split; try lia; try discriminate;
         rewrite Hx; unfold wire_times; simpl; now rewrite app_nil_r.
    intros E. apply IH in E. destruct E as (k & Hk & _ & Htx & Hr).
    exists (S k). repeat split; try lia.
    + rewrite Htx. simpl. rewrite Hx, wire_times_S. now rewrite app_assoc.
    + intros e He. now rewrite (Hr e He).
Qed.

(** X1.  Whatever the outcome, [send_at_cmd] with at least one round puts
    on the wire the command followed by CR LF, between one and [retries]
    times, and nothing else; when it raises, the command went out exactly
    [retries] times. *)
Theorem send_at_cmd_writes_only_the_command (fuel : nat) (at_cmd : string)
    (timeout retries : Z) (s s' : Sys W) (r : Res bytes) :
  0 < retries ->
  send_at_cmd fuel at_cmd timeout retries s = Some (r, s') ->
  exists k : nat,
    (1 <= k <= Z.to_nat retries)%nat /\
    written s s' = wire_times k at_cmd /\
    (forall e, r = Raise e -> k = Z.to_nat retries).
Proof.
  intros Hr E. apply attempts_tx_exact in E.
  destruct E as (k & Hk & Hk1 & Htx & He).
  exists k. split; [lia|]. split; [|exact He].
  now apply written_app.
Qed.

(** X2.  With [retries] zero or negative the loop body never runs:
    [send_at_cmd] raises at once, nothing is written and the device is not
    touched. *)
Theorem send_at_cmd_without_rounds (fuel : nat) (at_cmd : string)
    (timeout retries : Z) (s : Sys W) :
  retries <= 0 ->
  send_at_cmd fuel at_cmd timeout retries s =
    Some (Raise (Exception ("No OK response to " ++ at_cmd)), s).
Proof.
  intros Hr. unfold send_at_cmd.
  replace (Z.to_nat retries) with 0%nat by lia. reflexivity.
Qed.

Lemma verdict_inv (at_cmd : string) (response : bytes) :
  match verdict at_cmd response with
  | AcceptWifiGotIp =>
      is_join at_cmd = true /\ contains WIFI_GOT_IP response = true
  | AcceptPingError =>
      is_ping at_cmd = true /\ contains ERROR_CRLF response = true
  | AcceptOK => last_n 4 response = OK_CRLF
  | Retry => last_n 4 response <> OK_CRLF
  end.
Proof.
  unfold verdict.
  destruct (is_join at_cmd); destruct (contains WIFI_GOT_IP response);
    simpl; try tauto;
    destruct (is_ping at_cmd); destruct (contains ERROR_CRLF response);
    simpl; try tauto;
    destruct (bytes_eqb (last_n 4 response) OK_CRLF) eqn:E; simpl;
    try (now apply bytes_eqb_eq);
    intros H; apply bytes_eqb_eq in H; congruence.
Qed.

Lemma attempts_ret_inv (fuel : nat) (at_cmd : string) (timeout : Z) (n : nat) :
  forall (s s' : Sys W) (p : bytes),
    attempts fuel at_cmd timeout n s = Some (Ret p, s') ->
    exists (s0 : Sys W) (response : bytes),
      exchange fuel at_cmd timeout s0 = Some (response, s') /\
      ((verdict at_cmd response = AcceptWifiGotIp /\ response = p) \/
       (verdict at_cmd response = AcceptPingError /\ response = p) \/
       (verdict at_cmd response = AcceptOK /\ response = p ++ OK_CRLF)).
Proof.
  induction n as [|n IH]; intros s s' p; simpl; [discriminate|].
  destruct (exchange fuel at_cmd timeout s) as [[response s1]|] eqn:Hx;
    [|discriminate].
  destruct (verdict at_cmd response) eqn:Hv.
  - intros E. injection E as <- <-. exists s, response. tauto.
  - intros E. injection E as <- <-. exists s, response. tauto.
  - intros E. injection E as <- <-. exists s, response.
    split; [exact Hx|]. right. right. split; [exact Hv|].
    pose proof (verdict_inv at_cmd response) as Hi. rewrite Hv in Hi.
    rewrite <- Hi. symmetry. apply drop_last_last_n.
  - apply IH.
Qed.

(** X3.  A reply that [send_at_cmd] returns is the buffer of the round that
    ended it, and that round only: the whole buffer of a join-AP command
    that holds WIFI GOT IP, the whole buffer of a ping command that holds
    ERROR, or the buffer less its final OK CR LF. *)
Theorem returned_reply_is_last_buffer (fuel : nat) (at_cmd : string)
    (timeout retries : Z) (s s' : Sys W) (p : bytes) :
  send_at_cmd fuel at_cmd timeout retries s = Some (Ret p, s') ->
  exists (s0 : Sys W) (response : bytes),
    exchange fuel at_cmd timeout s0 = Some (response, s') /\
    ((response = p /\ is_join at_cmd = true /\
      contains WIFI_GOT_IP p = true) \/
     (response = p /\ is_ping at_cmd = true /\
      contains ERROR_CRLF p = true) \/
     response = p ++ OK_CRLF).
Proof.
  intros E. apply attempts_ret_inv in E.
  destruct E as (s0 & response & Hx & H).
  exists s0, response. split; [exact Hx|].
  pose proof (verdict_inv at_cmd response) as Hi.
  destruct H as [[Hv ->] | [[Hv ->] | [Hv ->]]]; rewrite Hv in Hi.
  - left. tauto.
  - right. left. tauto.
  - right. right. reflexivity.
Qed.

(** X4.  A command that is neither a join-AP nor a ping command returns
    only when a round's buffer ended in OK CR LF; what it returns is that
    buffer without these four bytes. *)
Theorem plain_command_returns_only_after_OK (fuel : nat) (at_cmd : string)
    (timeout retries : Z) (s s' : Sys W) (p : bytes) :
  is_join at_cmd = false ->
  is_ping at_cmd = false ->
  send_at_cmd fuel at_cmd timeout retries s = Some (Ret p, s') ->
  exists s0 : Sys W,
    exchange fuel at_cmd timeout s0 = Some (p ++ OK_CRLF, s').
Proof.
  intros Hj Hp E. apply attempts_ret_inv in E.
  destruct E as (s0 & response & Hx & H).
  exists s0.
  pose proof (verdict_inv at_cmd response) as Hi.
  destruct H as [[Hv ->] | [[Hv ->] | [Hv ->]]]; rewrite Hv in Hi.
  - destruct Hi; congruence.
  - destruct Hi; congruence.
  - exact Hx.
Qed.

End EngineMore.

Section SilentMore.

Context {W : Type} {T : Transport W} {now : W -> Z} {polls : nat}
        {L : SilentLine T now polls}.

(** X5.  On a line that never has a byte, for every timeout and every
    number of rounds, [send_at_cmd] ends by raising; by then the command
    went out once per round and the clock has advanced by the timeout and
    the one-unit sleep for each round. *)
Theorem silent_line_raises_after_every_deadline (fuel : nat)
    (at_cmd : string) (timeout retries : Z) (s : Sys W) :
  (polls * Z.to_nat timeout < fuel)%nat ->
  exists s' : Sys W,
    send_at_cmd fuel at_cmd timeout retries s =
      Some (Raise (Exception ("No OK response to " ++ at_cmd)), s') /\
    now (dev s) + Z.of_nat (Z.to_nat retries) * (timeout + 1)
      <= now (dev s') /\
    written s s' = wire_times (Z.to_nat retries) at_cmd.
Proof.
  intros Hf.
  destruct (attempts_silent fuel at_cmd timeout (Z.to_nat retries) Hf s)
    as (s' & Ha & Hn & _ & Htx).
  exists s'. split; [exact Ha|]. split; [exact Hn|].
  now apply written_app.
Qed.

(** X6.  A reset of a module that stays silent does not come back with
    [False]: the three rounds of AT+RST run out and [soft_reset] raises. *)
Theorem soft_reset_silent_raises (fuel : nat) (s : Sys W) :
  (polls < fuel)%nat ->
  exists s' : Sys W,
    soft_reset fuel true s =
      Some (Raise (Exception "No OK response to AT+RST"), s') /\
    written s s' = wire_times 3 "AT+RST".
Proof.
  intros Hf.
  destruct (attempts_silent fuel "AT+RST" 1 3) with (s := s)
    as (s' & Ha & _ & _ & Htx).
  - change (Z.to_nat 1) with 1%nat. lia.
  - exists s'. split; [|now apply written_app].
    unfold soft_reset, bind, send_at_cmd.
    change (Z.to_nat 3) with 3%nat. cbn [negb]. now rewrite Ha.
Qed.

End SilentMore.

(** ** The scans over the lines of a reply *)

Lemma split_go_nonempty (sep x : bytes) :
  forall (skip : nat) (cur : bytes), split_go sep skip cur x <> [].
Proof.
  induction x as [|c x IH]; intros skip cur; simpl; [discriminate|].
  destruct skip; [|apply IH].
  destruct (startswith sep (c :: x)); [discriminate | apply IH].
Qed.

Lemma split_nonempty (sep x : bytes) : split sep x <> [].
Proof. apply split_go_nonempty. Qed.

Lemma int_digit (d : byte) (v : Z) :
  digit_val d = Some v -> int [d] = Some v.
Proof. destruct d; simpl; try discriminate; intros E; exact E. Qed.

Lemma int_not_digit (d : byte) :
  digit_val d = None -> d <> x5f -> int [d] = None.
Proof.
  destruct d; simpl; try discriminate; try reflexivity.
  intros _ H. now destruct H.
Qed.

(** MicroPython reads a lone underscore as the number 0, and passes over
    underscores wherever they stand among the digits. *)
Example int_underscore : int [x5f] = Some 0.
Proof. reflexivity. Qed.

Example int_underscores :
  int (lit "1__0") = Some 10 /\ int (lit "_7") = Some 7 /\
  int (lit "3_") = Some 3 /\ int (lit " -4_2 ") = Some (-42) /\
  int (lit "+") = None /\ int (lit "1 2") = None /\ int (lit "0x10") = None.
Proof. repeat split. Qed.

(** A first field [_1] is the number 1 and so no network name. *)
Example underscore_field_is_a_number :
  decode_field (lit "_1") = Ret (VInt 1) /\
  already_joined [VInt 1] "_1" = false.
Proof. split; reflexivity. Qed.

Example utf8_check_rejects_ff : utf8_check (lit "caf" ++ [xff]) = false.
Proof. reflexivity. Qed.

Lemma status_scan_skip (pre rest : list bytes) :
  existsb (startswith (lit "STATUS:")) pre = false ->
  status_scan (pre ++ rest) = status_scan rest.
Proof.
  induction pre as [|l pre IH]; [reflexivity|].
  cbn [existsb app status_scan]. intros H.
  apply orb_false_iff in H. destruct H as [Hl Hp].
  rewrite Hl. now apply IH.
Qed.

Lemma mode_scan_skip (pre rest : list bytes) :
  existsb (startswith (lit "+CWMODE:")) pre = false ->
  mode_scan (pre ++ rest) = mode_scan rest.
Proof.
  induction pre as [|l pre IH]; [reflexivity|].
  cbn [existsb app mode_scan]. intros H.
  apply orb_false_iff in H. destruct H as [Hl Hp].
  rewrite Hl. now apply IH.
Qed.

Lemma remote_AP_scan_skip (pre rest : list bytes) :
  existsb (startswith (lit "+CWJAP:")) pre = false ->
  remote_AP_scan (pre ++ rest) = remote_AP_scan rest.
Proof.
  induction pre as [|l pre IH]; [reflexivity|].
  cbn [existsb app remote_AP_scan]. intros H.
  apply orb_false_iff in H. destruct H as [Hl Hp].
  rewrite Hl. now apply IH.
Qed.

Lemma decode_fields_length (fields : list bytes) :
  forall vs : list Value,
    decode_fields fields = Ret vs -> List.length vs = List.length fields.
Proof.
  induction fields as [|val rest IH]; intros vs; cbn [decode_fields].
  - intros E. now injection E as <-.
  - destruct (decode_field val) as [v|e]; [|discriminate].
    destruct (decode_fields rest) as [vs'|e]; [|discriminate].
    intros E. injection E as <-. simpl. now rewrite (IH vs' eq_refl).
Qed.

Lemma remote_AP_scan_nonempty (replies : list bytes) (router : list Value) :
  remote_AP_scan replies = Ret router -> router <> [].
Proof.
  induction replies as [|reply rest IH]; cbn [remote_AP_scan].
  - intros E. injection E as <-. discriminate.
  - destruct (negb (startswith (lit "+CWJAP:") reply)); [exact IH|].
    intros E. apply decode_fields_length in E.
    pose proof (split_nonempty (lit ",") (from 7 reply)) as Hs.
    destruct (split (lit ",") (from 7 reply)); [congruence|].
    destruct router; [discriminate | discriminate].
Qed.

(** *** Quotes at the ends of a decoded field *)

Lemma lstrip_head (c : byte) (x r : bytes) : lstrip c x <> c :: r.
Proof.
  induction x as [|d x IH]; simpl; [discriminate|].
  destruct (Byte.eqb c d) eqn:E; [exact IH|].
  intros H. injection H as -> _.
  rewrite Byte.byte_dec_lb in E by reflexivity. discriminate.
Qed.

Lemma lstrip_repeat (c : byte) (x : bytes) :
  exists k : nat, x = repeat c k ++ lstrip c x.
Proof.
  induction x as [|d x [k IH]]; simpl.
  - now exists 0%nat.
  - destruct (Byte.eqb c d) eqn:E.
    + apply Byte.byte_dec_bl in E. subst d.
      exists (S k). simpl. now rewrite <- IH.
    + now exists 0%nat.
Qed.

Lemma strip_no_lead (c : byte) (x r : bytes) : strip c x <> c :: r.
Proof.
  unfold strip, rstrip. intros H.
  destruct (lstrip_repeat c (rev (lstrip c x))) as [k Hk].
  apply (f_equal (@rev byte)) in Hk.
  rewrite rev_involutive, rev_app_distr, rev_repeat, H in Hk.
  now apply lstrip_head in Hk.
Qed.

Lemma strip_no_trail (c : byte) (x r : bytes) : strip c x <> r ++ [c].
Proof.
  unfold strip, rstrip. intros H.
  apply (f_equal (@rev byte)) in H.
  rewrite rev_involutive, rev_app_distr in H.
  now apply lstrip_head in H.
Qed.

(** X7.  A field that is decoded to a string never keeps a quote character
    at either end: [strip] takes every layer of quotes off, not one. *)
Theorem decoded_string_has_no_outer_quote (val : bytes) (s : string) :
  decode_field val = Ret (VStr s) ->
  (forall r, lit s <> QUOTE :: r) /\ (forall r, lit s <> r ++ [QUOTE]).
Proof.
  rewrite decode_field_rule.
  destruct (utf8_check val); [|discriminate].
  destruct (int val); [discriminate|].
  intros E. injection E as <-.
  unfold lit. rewrite list_byte_of_string_of_list_byte.
  split; intros r; [apply strip_no_lead | apply strip_no_trail].
Qed.

(** X30.  A field that stands in one pair of quotes, with no further
    quote next to either of them, and whose bytes [str] accepts as UTF-8,
    decodes to the string between the quotes; it is not read as a number
    even when the text between the quotes is one.  When [str] does not
    accept the bytes, decoding raises [UnicodeError]. *)
Theorem quoted_field_stays_a_string (x : bytes) :
  (forall r, x <> QUOTE :: r) ->
  (forall r, x <> r ++ [QUOTE]) ->
  (utf8_check (QUOTE :: x ++ [QUOTE]) = true ->
   decode_field (QUOTE :: x ++ [QUOTE]) = Ret (VStr (string_of_list_byte x)))
  /\
  (utf8_check (QUOTE :: x ++ [QUOTE]) = false ->
   decode_field (QUOTE :: x ++ [QUOTE]) = Raise UnicodeError).
Proof.
  intros Hl Hr. rewrite (decode_field_quoted x Hl Hr).
  split; intros ->; reflexivity.
Qed.

Lemma get_APs_scan_from_skip (scan : list bytes) :
  existsb (startswith (lit "+CWLAP:(")) scan = false ->
  forall routers, get_APs_scan_from routers scan = Ret routers.
Proof.
  induction scan as [|line rest IH]; intros E routers; [reflexivity|].
  cbn [existsb] in E. apply orb_false_iff in E. destruct E as [El Er].
  cbn [get_APs_scan_from]. rewrite El. now apply IH.
Qed.

(** ** Status, mode and access point *)

Section ManagerMore.

Context {W : Type} {T : Transport W}.

(** X9.  [status] reads the first line that starts with [STATUS:] and, of
    that line, the one byte after the colon: when it is a digit the status
    is that digit, whatever follows on the line and on later lines. *)
Theorem status_reads_one_digit (fuel : nat) (s s' : Sys W)
    (reply : bytes) (pre post : list bytes) (d : byte) (rest : bytes)
    (v : Z) :
  send_at_cmd fuel "AT+CIPSTATUS" 5 3 s = Some (Ret reply, s') ->
  split CRLF reply = pre ++ (lit "STATUS:" ++ d :: rest) :: post ->
  existsb (startswith (lit "STATUS:")) pre = false ->
  digit_val d = Some v ->
  status fuel s = Some (Ret (Some v), s').
Proof.
  intros Hs Hl Hp Hd. unfold status, bind, lift. rewrite Hs, Hl.
  rewrite (status_scan_skip _ _ Hp).
  change (status_scan ((lit "STATUS:" ++ d :: rest) :: post))
    with (match int [d] with
          | Some n => @Ret (option Z) (Some n)
          | None => Raise ValueError
          end).
  now rewrite (int_digit _ _ Hd).
Qed.

(** X10.  When the first [STATUS:] line ends at the colon, or goes on with
    a byte that is neither a digit nor an underscore, [status] raises the
    [ValueError] of [int]; it does not fall back to [None].  (An underscore
    is the one other byte [int] accepts there: it reads as 0.) *)
Theorem status_without_digit_raises (fuel : nat) (s s' : Sys W)
    (reply : bytes) (pre post : list bytes) (rest : bytes) :
  send_at_cmd fuel "AT+CIPSTATUS" 5 3 s = Some (Ret reply, s') ->
  split CRLF reply = pre ++ (lit "STATUS:" ++ rest) :: post ->
  existsb (startswith (lit "STATUS:")) pre = false ->
  (forall d, hd_error rest = Some d -> digit_val d = None /\ d <> x5f) ->
  status fuel s = Some (Raise ValueError, s').
Proof.
  intros Hs Hl Hp Hd. unfold status, bind, lift. rewrite Hs, Hl.
  rewrite (status_scan_skip _ _ Hp).
  destruct rest as [|d rest]; [reflexivity|].
  change (status_scan ((lit "STATUS:" ++ d :: rest) :: post))
    with (match int [d] with
          | Some n => @Ret (option Z) (Some n)
          | None => Raise ValueError
          end).
  destruct (Hd d eq_refl) as [Hn Hu].
  now rewrite (int_not_digit d Hn Hu).
Qed.

(** X11.  [is_connected] is [True] exactly when the digit after the first
    [STATUS:] is 2, 3 or 4. *)
Theorem is_connected_reads_first_status (fuel : nat) (s s' : Sys W)
    (reply : bytes) (pre post : list bytes) (d : byte) (rest : bytes)
    (v : Z) :
  send_at_cmd fuel "AT+CIPSTATUS" 5 3 s = Some (Ret reply, s') ->
  split CRLF reply = pre ++ (lit "STATUS:" ++ d :: rest) :: post ->
  existsb (startswith (lit "STATUS:")) pre = false ->
  digit_val d = Some v ->
  is_connected fuel s = Some (Ret ((v =? 2) || (v =? 3) || (v =? 4)), s').
Proof.
  intros Hs Hl Hp Hd. unfold is_connected, status, bind, lift, ret.
  rewrite Hs, Hl, (status_scan_skip _ _ Hp).
  change (status_scan ((lit "STATUS:" ++ d :: rest) :: post))
    with (match int [d] with
          | Some n => @Ret (option Z) (Some n)
          | None => Raise ValueError
          end).
  now rewrite (int_digit _ _ Hd).
Qed.

(** X12.  When the accepted status reply has no [STATUS:] line,
    [is_connected] answers [False]; it raises nothing. *)
Theorem is_connected_without_line_is_False (fuel : nat) (s s' : Sys W)
    (reply : bytes) :
  send_at_cmd fuel "AT+CIPSTATUS" 5 3 s = Some (Ret reply, s') ->
  existsb (startswith (lit "STATUS:")) (split CRLF reply) = false ->
  is_connected fuel s = Some (Ret false, s').
Proof.
  intros Hs Hp. unfold is_connected, status, bind, lift, ret. rewrite Hs.
  rewrite <- (app_nil_r (split CRLF reply)).
  now rewrite (status_scan_skip _ _ Hp).
Qed.

(** X13.  When the accepted reply to AT+CWMODE? has no [+CWMODE:] line, the
    [mode] getter raises [RuntimeError("Bad response to CWMODE?")]. *)
Theorem mode_without_line_raises (fuel : nat) (s s' : Sys W)
    (reply : bytes) :
  send_at_cmd fuel "AT+CWMODE?" 5 3 s = Some (Ret reply, s') ->
  existsb (startswith (lit "+CWMODE:")) (split CRLF reply) = false ->
  mode fuel s = Some (Raise (RuntimeError "Bad response to CWMODE?"), s').
Proof.
  intros Hs Hp. unfold mode, bind, lift. rewrite Hs.
  rewrite <- (app_nil_r (split CRLF reply)).
  now rewrite (mode_scan_skip _ _ Hp).
Qed.

(** X14.  The list [remote_AP] returns is never empty, so the [AP[0]] of
    [connect] and the [router[0]] of [join_ap] cannot fail. *)
Theorem remote_AP_never_empty (fuel : nat) (s s' : Sys W)
    (router : list Value) :
  remote_AP fuel s = Some (Ret router, s') ->
  exists (v : Value) (rest : list Value), router = v :: rest.
Proof.
  unfold remote_AP. intros H. apply bind_inv in H.
  destruct H as [(e & _ & He) | (stat & s1 & _ & H)]; [discriminate|].
  destruct (negb (is_ap_connected stat)).
  - injection H as <- _. now exists VNone, [VNone; VNone; VNone].
  - apply bind_inv in H.
    destruct H as [(e & _ & He) | (reply & s2 & _ & H)]; [discriminate|].
    unfold lift in H. injection H as H _.
    apply remote_AP_scan_nonempty in H.
    destruct router as [|v rest]; [congruence|]. now exists v, rest.
Qed.

(** X15.  With status 2 but no [+CWJAP:] line in the accepted reply to
    AT+CWJAP?, [remote_AP] returns the same four [None]s as when the module
    is not connected (line 178). *)
Theorem remote_AP_without_line_is_null (fuel : nat) (s s1 s2 : Sys W)
    (reply : bytes) :
  status fuel s = Some (Ret (Some STATUS_APCONNECTED), s1) ->
  send_at_cmd fuel "AT+CWJAP?" 10 3 s1 = Some (Ret reply, s2) ->
  existsb (startswith (lit "+CWJAP:")) (split CRLF reply) = false ->
  remote_AP fuel s = Some (Ret null_AP, s2).
Proof.
  intros Hs Hr Hp. unfold remote_AP, bind, lift. rewrite Hs.
  cbn [is_ap_connected negb].
  change (STATUS_APCONNECTED =? STATUS_APCONNECTED) with true.
  cbn [negb]. rewrite Hr.
  rewrite <- (app_nil_r (split CRLF reply)).
  now rewrite (remote_AP_scan_skip _ _ Hp).
Qed.

End ManagerMore.

(** ** Scanning and joining *)

Section JoinMore.

Context {W : Type} {T : Transport W}.

Lemma send_at_cmd_raise (fuel : nat) (at_cmd : string) (timeout retries : Z)
    (s s' : Sys W) (e : Exn) :
  send_at_cmd fuel at_cmd timeout retries s = Some (Raise e, s') ->
  e = Exception ("No OK response to " ++ at_cmd).
Proof. apply attempts_raise. Qed.

(** X8.  When the module is in station mode and the accepted reply to
    AT+CWLAP has no line that starts with [+CWLAP:(], [get_APs] returns the
    empty list: not [None], which it keeps for rounds that ran out, and not
    an error. *)
Theorem get_APs_empty_scan_gives_empty_list (fuel : nat) (self : ESP)
    (retries : Z) (s s1 s2 : Sys W) (scan : bytes) :
  0 < retries ->
  mode fuel s = Some (Ret MODE_STATION, s1) ->
  send_at_cmd fuel "AT+CWLAP" 5 3 s1 = Some (Ret scan, s2) ->
  existsb (startswith (lit "+CWLAP:(")) (split CRLF scan) = false ->
  get_APs fuel self retries s = Some (Ret (Some []), s2).
Proof.
  intros Hr Hm Hs Hp. unfold get_APs.
  replace (Z.to_nat retries) with (S (Z.to_nat (retries - 1))) by lia.
  cbn [get_APs_rounds]. unfold ensure_station, bind. rewrite Hm.
  change (negb (MODE_STATION =? MODE_STATION)) with false. cbv iota.
  unfold ret at 1. rewrite Hs. unfold get_APs_scan.
  now rewrite (get_APs_scan_from_skip _ Hp).
Qed.

(** X16.  The rounds of [get_APs] catch [RuntimeError] only: when the
    module is in station mode and AT+CWLAP finds no acceptable reply, the
    exception of [send_at_cmd] leaves [get_APs] in the first round. *)
Theorem get_APs_passes_on_exception (fuel : nat) (self : ESP) (retries : Z)
    (s s1 s2 : Sys W) (e : Exn) :
  0 < retries ->
  mode fuel s = Some (Ret MODE_STATION, s1) ->
  send_at_cmd fuel "AT+CWLAP" 5 3 s1 = Some (Raise e, s2) ->
  get_APs fuel self retries s =
    Some (Raise (Exception "No OK response to AT+CWLAP"), s2).
Proof.
  intros Hr Hm Hs. pose proof (send_at_cmd_raise _ _ _ _ _ _ _ Hs) as ->.
  unfold get_APs.
  replace (Z.to_nat retries) with (S (Z.to_nat (retries - 1))) by lia.
  cbn [get_APs_rounds]. unfold ensure_station, bind. rewrite Hm.
  change (negb (MODE_STATION =? MODE_STATION)) with false. cbv iota.
  unfold ret at 1. now rewrite Hs.
Qed.

(** X17.  A [RuntimeError] of the mode query costs [get_APs] one round and
    nothing more is done in that round; when it was the only round the
    result is Python's [None], not an exception. *)
Theorem get_APs_swallows_RuntimeError (fuel : nat) (self : ESP)
    (s s1 : Sys W) (msg : string) :
  mode fuel s = Some (Raise (RuntimeError msg), s1) ->
  (forall retries : Z,
      0 < retries ->
      get_APs fuel self retries s = get_APs fuel self (retries - 1) s1) /\
  get_APs fuel self 1 s = Some (Ret None, s1).
Proof.
  intros Hm.
  assert (Hstep : forall n,
             get_APs_rounds fuel self (S n) s = get_APs_rounds fuel self n s1).
  { intros n. cbn [get_APs_rounds]. unfold ensure_station, bind.
    now rewrite Hm. }
  split.
  - intros retries Hr. unfold get_APs.
    replace (Z.to_nat retries) with (S (Z.to_nat (retries - 1))) by lia.
    apply Hstep.
  - unfold get_APs. change (Z.to_nat 1) with 1%nat. now rewrite Hstep.
Qed.

(** X18.  On a constructed object, [get_APs] asked of a module that is not
    in station mode ends in the [AttributeError] of the mode setter right
    after the mode query: no round is retried and AT+CWLAP is not sent. *)
Theorem get_APs_not_station_raises (fuel : nat) (debug : bool)
    (retries m : Z) (s s1 : Sys W) :
  0 < retries ->
  mode fuel s = Some (Ret m, s1) ->
  m <> MODE_STATION ->
  get_APs fuel (ESP_init debug) retries s =
    Some (Raise (AttributeError "_initialized"), s1).
Proof.
  intros Hr Hm Hn. unfold get_APs.
  replace (Z.to_nat retries) with (S (Z.to_nat (retries - 1))) by lia.
  cbn [get_APs_rounds]. unfold ensure_station, bind. rewrite Hm.
  apply Z.eqb_neq in Hn. rewrite Hn. reflexivity.
Qed.

(** X19.  Likewise [join_ap]: when the module is not in station mode it
    raises the [AttributeError] of the mode setter right after the mode
    query; neither the access point is asked for nor the join command
    sent. *)
Theorem join_ap_not_station_raises (fuel : nat) (debug : bool)
    (ssid password : string) (m : Z) (s s1 : Sys W) :
  mode fuel s = Some (Ret m, s1) ->
  m <> MODE_STATION ->
  join_ap fuel (ESP_init debug) ssid password s =
    Some (Raise (AttributeError "_initialized"), s1).
Proof.
  intros Hm Hn. unfold join_ap, ensure_station, bind. rewrite Hm.
  apply Z.eqb_neq in Hn. rewrite Hn. reflexivity.
Qed.

(** X20.  When the module is in station mode and not on the network asked
    for, [join_ap] sends the join command and returns as soon as
    [send_at_cmd] returns a reply, whatever the reply says: the tests for
    WIFI CONNECTED and WIFI GOT IP of lines 221-226 only print. *)
Theorem join_ap_returns_whatever_the_reply (fuel : nat) (self : ESP)
    (ssid password : string) (s s1 s2 s3 : Sys W) (router : list Value)
    (reply : bytes) :
  mode fuel s = Some (Ret MODE_STATION, s1) ->
  remote_AP fuel s1 = Some (Ret router, s2) ->
  already_joined router ssid = false ->
  send_at_cmd fuel (join_cmd ssid password) 15 3 s2 = Some (Ret reply, s3) ->
  join_ap fuel self ssid password s = Some (Ret tt, s3).
Proof.
  intros Hm Hr Hj Hs. unfold join_ap, ensure_station, bind. rewrite Hm.
  change (negb (MODE_STATION =? MODE_STATION)) with false. cbv iota.
  unfold ret at 1. now rewrite Hr, Hj, Hs.
Qed.

End JoinMore.

(** ** Ping, address, reset and reconnection *)

Lemma is_ping_ping_command (host : string) :
  is_ping (ping_command host) = true.
Proof. reflexivity. Qed.

Lemma ping_scan_outcome (lines : list bytes) :
  (exists reading : option Z, ping_scan lines = Ret reading) \/
  ping_scan lines = Raise (RuntimeError "Couldn't ping").
Proof.
  induction lines as [|line rest IH]; [now right|].
  cbn [ping_scan].
  destruct (nonempty line && startswith (lit "+") line); [|exact IH].
  destruct (bytes_eqb (slice 1 5 line) (lit "PING")); left; eexists;
    reflexivity.
Qed.

Lemma ping_scan_skip (pre rest : list bytes) :
  existsb (fun l => nonempty l && startswith (lit "+") l) pre = false ->
  ping_scan (pre ++ rest) = ping_scan rest.
Proof.
  induction pre as [|l pre IH]; [reflexivity|].
  cbn [existsb app ping_scan]. intros H.
  apply orb_false_iff in H. destruct H as [Hl Hp].
  rewrite Hl. now apply IH.
Qed.

Lemma local_ip_scan_skip (pre rest : list bytes) :
  existsb (fun l => nonempty l && startswith STAIP_prefix l) pre = false ->
  local_ip_scan (pre ++ rest) = local_ip_scan rest.
Proof.
  induction pre as [|l pre IH]; [reflexivity|].
  cbn [existsb app local_ip_scan]. intros H.
  apply orb_false_iff in H. destruct H as [Hl Hp].
  rewrite Hl. now apply IH.
Qed.

Lemma startswith_app (p x : bytes) : startswith p (p ++ x) = true.
Proof.
  induction p as [|c p IH]; [reflexivity|]. simpl.
  now rewrite Byte.byte_dec_lb, IH.
Qed.

Lemma slice_to_last_middle (p x : bytes) (c : byte) :
  slice_to_last (List.length p) 1 (p ++ x ++ [c]) = x.
Proof.
  unfold slice_to_last. rewrite app_assoc, length_app. simpl List.length.
  replace (List.length (p ++ x) + 1 - 1)%nat with (List.length (p ++ x))
    by lia.
  rewrite firstn_app, firstn_all, Nat.sub_diag, firstn_O, app_nil_r.
  rewrite skipn_app, skipn_all, Nat.sub_diag. reflexivity.
Qed.

Section PingMore.

Context {W : Type} {T : Transport W}.

(** X21.  [ping] raises one of three exceptions only.  On an object whose
    UART could not be built it is the [AttributeError] of the first
    [self._uart.write], and nothing has been done.  Otherwise it is the
    exception of [send_at_cmd], or [RuntimeError("Couldn't ping")] when no
    line of the reply starts with [+].  A reading that [int] cannot parse
    is never an error of [ping]. *)
Theorem ping_raises_only (fuel : nat) (uart_bound : bool) (host : string)
    (s s' : Sys W) (e : Exn) :
  ping fuel uart_bound host s = Some (Raise e, s') ->
  (uart_bound = false /\ e = AttributeError "write" /\ s' = s) \/
  (uart_bound = true /\
   (e = Exception ("No OK response to " ++ ping_command host) \/
    e = RuntimeError "Couldn't ping")).
Proof.
  unfold ping. destruct uart_bound; cbn [negb].
  - intros H. right. split; [reflexivity|]. apply bind_inv in H.
    destruct H as [(e' & Hs & He) | (reply & s1 & _ & H)].
    + left. injection He as ->. exact (send_at_cmd_raise _ _ _ _ _ _ _ Hs).
    + right. unfold lift in H. injection H as H _.
      destruct (ping_scan_outcome (split CRLF reply)) as [[r Hr] | Hr];
        rewrite Hr in H; [discriminate | now injection H as <-].
  - intros H. injection H as <- <-. left. repeat split.
Qed.

(** X22.  A ping whose buffer holds ERROR CR LF is not retried and raises
    no exception of [send_at_cmd]: the whole buffer of that round is handed
    to the scan of lines 46-54.  (The host must not itself spell
    [AT+CWJAP=].) *)
Theorem ping_error_reply_is_decoded (fuel : nat) (host : string)
    (s s' : Sys W) (response : bytes) :
  is_join (ping_command host) = false ->
  exchange fuel (ping_command host) 5 s = Some (response, s') ->
  contains ERROR_CRLF response = true ->
  ping fuel true host s = Some (ping_scan (split CRLF response), s').
Proof.
  intros Hj Hx He. unfold ping, bind. cbn [negb].
  rewrite send_at_cmd_first by lia. rewrite Hx.
  unfold verdict. rewrite Hj, is_ping_ping_command, He. reflexivity.
Qed.

(** X23.  The reading of [ping] is taken from the first non-empty line
    that starts with [+]: after [+PING] one byte is passed over unread and
    the rest is the number; otherwise all that follows the [+] is.  The
    number is read as MicroPython's [int] reads it; what [int] cannot
    parse gives [None]. *)
Theorem ping_reads_both_forms (fuel : nat) (host : string) (s s' : Sys W)
    (reply : bytes) (pre post : list bytes) (line : bytes) :
  send_at_cmd fuel (ping_command host) 5 3 s = Some (Ret reply, s') ->
  split CRLF reply = pre ++ line :: post ->
  existsb (fun l => nonempty l && startswith (lit "+") l) pre = false ->
  (forall (c : byte) (body : bytes),
      line = lit "+PING" ++ c :: body ->
      ping fuel true host s = Some (Ret (int body), s')) /\
  (forall body : bytes,
      line = lit "+" ++ body ->
      firstn 4 body <> lit "PING" ->
      ping fuel true host s = Some (Ret (int body), s')).
Proof.
  intros Hs Hl Hp.
  assert (E : ping fuel true host s = Some (ping_scan (line :: post), s')).
  { unfold ping, bind, lift. cbn [negb]. rewrite Hs, Hl.
    now rewrite ping_scan_skip. }
  rewrite E. split.
  - intros c body ->. reflexivity.
  - intros body -> Hb.
    change (ping_scan ((lit "+" ++ body) :: post))
      with (if bytes_eqb (firstn 4 body) (lit "PING")
            then @Ret (option Z) (int (skipn 5 body))
            else Ret (int body)).
    destruct (bytes_eqb (firstn 4 body) (lit "PING")) eqn:Eb;
      [|reflexivity].
    apply bytes_eqb_eq in Eb. congruence.
Qed.

(** X24.  [local_ip] takes the first line that starts with the prefix
    [+CIFSR:STAIP,] and its opening quote, and of that line what stands
    between the prefix and the last byte; the last byte is dropped unread.
    When [str] accepts these bytes as UTF-8 they are the string returned;
    when it does not, [local_ip] raises [UnicodeError]. *)
Theorem local_ip_returns_quoted_address (fuel : nat) (s s' : Sys W)
    (reply : bytes) (pre post : list bytes) (ip : bytes) (c : byte) :
  send_at_cmd fuel "AT+CIFSR" 20 3 s = Some (Ret reply, s') ->
  split CRLF (strip_chars CRLF reply) =
    pre ++ (STAIP_prefix ++ ip ++ [c]) :: post ->
  existsb (fun l => nonempty l && startswith STAIP_prefix l) pre = false ->
  local_ip fuel s =
    Some ((if utf8_check ip
           then Ret (string_of_list_byte ip)
           else Raise UnicodeError), s').
Proof.
  intros Hs Hl Hp. unfold local_ip, bind, lift. rewrite Hs, Hl.
  rewrite (local_ip_scan_skip _ _ Hp). cbn [local_ip_scan].
  rewrite startswith_app.
  change (nonempty (STAIP_prefix ++ ip ++ [c])) with true. cbn [andb].
  change 14%nat with (List.length STAIP_prefix).
  now rewrite slice_to_last_middle.
Qed.

(** X25.  When no line of the accepted reply starts with that prefix,
    [local_ip] raises [RuntimeError("Couldn't find IP address")]. *)
Theorem local_ip_without_line_raises (fuel : nat) (s s' : Sys W)
    (reply : bytes) :
  send_at_cmd fuel "AT+CIFSR" 20 3 s = Some (Ret reply, s') ->
  existsb (fun l => nonempty l && startswith STAIP_prefix l)
    (split CRLF (strip_chars CRLF reply)) = false ->
  local_ip fuel s =
    Some (Raise (RuntimeError "Couldn't find IP address"), s').
Proof.
  intros Hs Hp. unfold local_ip, bind, lift. rewrite Hs.
  rewrite <- (app_nil_r (split CRLF (strip_chars CRLF reply))).
  now rewrite (local_ip_scan_skip _ _ Hp).
Qed.

(** X26.  [soft_reset] answers [True] only when the UART is bound and the
    accepted reply, its CR and LF characters stripped from both ends, is
    the echo AT+RST; it has then slept two units. *)
Theorem soft_reset_True_only_after_echo (fuel : nat) (uart_bound : bool)
    (s s' : Sys W) :
  soft_reset fuel uart_bound s = Some (Ret true, s') ->
  uart_bound = true /\
  exists (reply : bytes) (s1 : Sys W),
    send_at_cmd fuel "AT+RST" 1 3 s = Some (Ret reply, s1) /\
    strip_chars CRLF reply = lit "AT+RST" /\
    s' = sleep 2 s1.
Proof.
  unfold soft_reset. destruct uart_bound; cbn [negb]; [|discriminate].
  intros H. split; [reflexivity|]. apply bind_inv in H.
  destruct H as [(e & _ & He) | (reply & s1 & Hs & H)]; [discriminate|].
  exists reply, s1. split; [exact Hs|].
  destruct (bytes_eqb (strip_chars CRLF reply) (lit "AT+RST")) eqn:E;
    [|discriminate].
  apply bytes_eqb_eq in E. split; [exact E|]. now injection H as <-.
Qed.

Lemma connect_try_outcome (fuel : nat) (self : ESP) (secrets : Secrets)
    (s s' : Sys W) (b : bool) :
  connect_try fuel self secrets s = Some (Ret b, s') -> b = true.
Proof.
  unfold connect_try. intros H. apply bind_inv in H.
  destruct H as [(e & _ & He) | (AP & s1 & _ & H)]; [discriminate|].
  apply bind_inv in H.
  destruct H as [(e & _ & He) | (u & s2 & _ & H)]; [discriminate|].
  now injection H as <- _.
Qed.

(** X27.  [connect] has one value to return, [True]; it never returns
    [False]. *)
Theorem connect_returns_only_True (rounds fuel : nat) (self : ESP)
    (secrets : Secrets) (s s' : Sys W) (b : bool) :
  connect rounds fuel self secrets s = Some (Ret b, s') -> b = true.
Proof.
  revert s. induction rounds as [|rounds IH]; intros s; simpl;
    [discriminate|].
  destruct (connect_try fuel self secrets s) as [[[b'|e] s1]|] eqn:E;
    try discriminate.
  - intros H. injection H as <- _. eapply connect_try_outcome, E.
  - destruct e; try discriminate. apply IH.
Qed.

(** X28.  No [RuntimeError] leaves [connect]: each one starts the loop
    again, without a pause and without a bound. *)
Theorem connect_raises_no_RuntimeError (rounds fuel : nat) (self : ESP)
    (secrets : Secrets) (s s' : Sys W) (e : Exn) :
  connect rounds fuel self secrets s = Some (Raise e, s') ->
  match e with
  | RuntimeError _ => False
  | _ => True
  end.
Proof.
  revert s. induction rounds as [|rounds IH]; intros s; simpl;
    [discriminate|].
  destruct (connect_try fuel self secrets s) as [[[b'|e'] s1]|] eqn:E;
    try discriminate.
  destruct e'; try (intros H; injection H as <- _; exact I).
  apply IH.
Qed.

(** X29.  When the access point that [remote_AP] reports first names the
    network of the secrets, [connect] returns [True] after this one query:
    the system is as [remote_AP] left it, neither the mode is asked for nor
    a join command sent. *)
Theorem connect_already_joined (rounds fuel : nat) (self : ESP)
    (secrets : Secrets) (s s1 : Sys W) (router : list Value) :
  remote_AP fuel s = Some (Ret router, s1) ->
  already_joined router (secrets_ssid secrets) = true ->
  connect (S rounds) fuel self secrets s = Some (Ret true, s1).
Proof.
  intros Hr Hj. cbn [connect]. unfold connect_try, bind. rewrite Hr.
  destruct router as [|v rest]; [discriminate|].
  cbn [already_joined] in Hj. cbn [hd]. rewrite Hj. reflexivity.
Qed.

End PingMore.

(* ================================================================== *)
(** * The further properties on the two transports *)

Lemma send_at_cmd_writes_witness :
  exists s' : Sys Scripted,
    0 < 3 /\
    send_at_cmd 600 "AT+CIFSR" 5 3
      (module_with [plain_error; noted_error; noted_error]) =
      Some (Raise (Exception "No OK response to AT+CIFSR"), s') /\
    exists k : nat,
      (1 <= k <= Z.to_nat 3)%nat /\
      written (module_with [plain_error; noted_error; noted_error]) s' =
        wire_times k "AT+CIFSR" /\
      (forall e, @Raise bytes (Exception "No OK response to AT+CIFSR")
                 = Raise e -> k = Z.to_nat 3).
Proof.
  eexists.
  assert (Hs : send_at_cmd 600 "AT+CIFSR" 5 3
                 (module_with [plain_error; noted_error; noted_error]) =
               Some (Raise (Exception "No OK response to AT+CIFSR"), _))
    by (vm_compute; reflexivity).
  split; [lia|]. split; [exact Hs|].
  apply (send_at_cmd_writes_only_the_command 600 "AT+CIFSR" 5 3 _ _ _);
    [lia | exact Hs].
Defined.

Lemma send_at_cmd_without_rounds_witness :
  0 <= 0 /\
  send_at_cmd 600 "AT" 5 0 (module_with [OK_line "ready"]) =
    Some (Raise (Exception ("No OK response to " ++ "AT")),
          module_with [OK_line "ready"]).
Proof.
  split; [lia|].
  apply (send_at_cmd_without_rounds 600 "AT" 5 0
           (module_with [OK_line "ready"])).
  lia.
Defined.

Lemma returned_reply_witness :
  exists s' : Sys Scripted,
    send_at_cmd 200 (join_cmd "home" "secret") 15 3 (module_with [join_reply])
      = Some (Ret (lit "WIFI CONNECTED" ++ CRLF ++ WIFI_GOT_IP), s') /\
    exists (s0 : Sys Scripted) (response : bytes),
      exchange 200 (join_cmd "home" "secret") 15 s0 = Some (response, s') /\
      ((response = lit "WIFI CONNECTED" ++ CRLF ++ WIFI_GOT_IP /\
        is_join (join_cmd "home" "secret") = true /\
        contains WIFI_GOT_IP (lit "WIFI CONNECTED" ++ CRLF ++ WIFI_GOT_IP)
          = true) \/
       (response = lit "WIFI CONNECTED" ++ CRLF ++ WIFI_GOT_IP /\
        is_ping (join_cmd "home" "secret") = true /\
        contains ERROR_CRLF (lit "WIFI CONNECTED" ++ CRLF ++ WIFI_GOT_IP)
          = true) \/
       response = (lit "WIFI CONNECTED" ++ CRLF ++ WIFI_GOT_IP) ++ OK_CRLF).
Proof.
  eexists.
  assert (Hs : send_at_cmd 200 (join_cmd "home" "secret") 15 3
                 (module_with [join_reply]) =
               Some (Ret (lit "WIFI CONNECTED" ++ CRLF ++ WIFI_GOT_IP), _))
    by (vm_compute; reflexivity).
  split; [exact Hs|].
  apply (returned_reply_is_last_buffer 200 (join_cmd "home" "secret") 15 3
           _ _ _ Hs).
Defined.

Lemma plain_command_witness :
  exists s' : Sys Scripted,
    is_join "AT+CIPSTATUS" = false /\
    is_ping "AT+CIPSTATUS" = false /\
    send_at_cmd 600 "AT+CIPSTATUS" 5 3 (module_with [OK_line "STATUS:2"]) =
      Some (Ret (lit "STATUS:2" ++ CRLF ++ CRLF), s') /\
    exists s0 : Sys Scripted,
      exchange 600 "AT+CIPSTATUS" 5 s0 =
        Some ((lit "STATUS:2" ++ CRLF ++ CRLF) ++ OK_CRLF, s').
Proof.
  eexists.
  assert (Hs : send_at_cmd 600 "AT+CIPSTATUS" 5 3
                 (module_with [OK_line "STATUS:2"]) =
               Some (Ret (lit "STATUS:2" ++ CRLF ++ CRLF), _))
    by (vm_compute; reflexivity).
  split; [reflexivity|]. split; [reflexivity|]. split; [exact Hs|].
  apply (plain_command_returns_only_after_OK 600 "AT+CIPSTATUS" 5 3 _ _ _
           eq_refl eq_refl Hs).
Defined.

Lemma silent_line_every_deadline_witness :
  SilentLine Quiet_Transport quiet_now 4 /\
  (4 * Z.to_nat 2 < 9)%nat /\
  exists s' : Sys Quiet,
    send_at_cmd 9 "AT" 2 5 silent_line =
      Some (Raise (Exception ("No OK response to " ++ "AT")), s') /\
    quiet_now (dev silent_line) + Z.of_nat (Z.to_nat 5) * (2 + 1)
      <= quiet_now (dev s') /\
    written silent_line s' = wire_times (Z.to_nat 5) "AT".
Proof.
  split; [exact Quiet_SilentLine|].
  split; [change (Z.to_nat 2) with 2%nat; lia|].
  apply (silent_line_raises_after_every_deadline (L := Quiet_SilentLine)
           9 "AT" 2 5 silent_line).
  change (Z.to_nat 2) with 2%nat; lia.
Defined.

Lemma soft_reset_silent_witness :
  SilentLine Quiet_Transport quiet_now 4 /\
  (4 < 5)%nat /\
  exists s' : Sys Quiet,
    soft_reset 5 true silent_line =
      Some (Raise (Exception "No OK response to AT+RST"), s') /\
    written silent_line s' = wire_times 3 "AT+RST".
Proof.
  split; [exact Quiet_SilentLine|]. split; [lia|].
  apply (soft_reset_silent_raises (L := Quiet_SilentLine) 5 silent_line).
  lia.
Defined.

Lemma decoded_string_witness :
  decode_field (QUOTE :: QUOTE :: lit "home" ++ [QUOTE; QUOTE])
    = Ret (VStr "home")
  /\ (forall r, lit "home" <> QUOTE :: r)
  /\ (forall r, lit "home" <> r ++ [QUOTE]).
Proof.
  split; [reflexivity|].
  apply (decoded_string_has_no_outer_quote
           (QUOTE :: QUOTE :: lit "home" ++ [QUOTE; QUOTE]) "home").
  reflexivity.
Defined.

Lemma quoted_field_witness :
  (forall r, lit "12345" <> QUOTE :: r) /\
  (forall r, lit "12345" <> r ++ [QUOTE]) /\
  utf8_check (QUOTE :: lit "12345" ++ [QUOTE]) = true /\
  decode_field (QUOTE :: lit "12345" ++ [QUOTE])
    = Ret (VStr (string_of_list_byte (lit "12345"))).
Proof.
  assert (H1 : forall r, lit "12345" <> QUOTE :: r)
    by (intros r; discriminate).
  assert (H2 : forall r, lit "12345" <> r ++ [QUOTE]).
  { intros r E. apply (f_equal (@rev byte)) in E.
    rewrite rev_app_distr in E. discriminate. }
  split; [exact H1|]. split; [exact H2|]. split; [reflexivity|].
  apply (proj1 (quoted_field_stays_a_string (lit "12345") H1 H2)).
  reflexivity.
Defined.

(** The same field with a byte that is no UTF-8 in it. *)
Example quoted_field_not_utf8 :
  decode_field (QUOTE :: (lit "caf" ++ [xff]) ++ [QUOTE]) = Raise UnicodeError.
Proof. reflexivity. Qed.

(** A scan of two networks around a line that is not one, end to end. *)
Example get_APs_two_networks :
  option_map fst
    (get_APs 600 (ESP_init false) 3
       (module_with [OK_line "+CWMODE:1"; cwlap_reply])) =
  Some (Ret (Some [[VInt 3; VStr "home"; VInt (-55)];
                   [VInt 0; VStr "cafe"; VInt (-80)]])).
Proof. vm_compute. reflexivity. Qed.

(** A network name that is no UTF-8 ends the scan in [UnicodeError]; the
    rounds of [get_APs] do not catch it. *)
Example get_APs_not_utf8 :
  option_map fst
    (get_APs 600 (ESP_init false) 3
       (module_with
          [OK_line "+CWMODE:1";
           lit "+CWLAP:(3," ++ [QUOTE] ++ lit "caf" ++ [xff; QUOTE]
             ++ lit ",-55)" ++ CRLF ++ CRLF ++ OK_CRLF])) =
  Some (Raise UnicodeError).
Proof. vm_compute. reflexivity. Qed.

(** A status line with an underscore after the colon: MicroPython's [int]
    reads 0. *)
Example status_underscore :
  option_map fst (status 600 (module_with [OK_line "STATUS:_"])) =
  Some (Ret (Some 0)).
Proof. vm_compute. reflexivity. Qed.

Lemma get_APs_empty_scan_witness :
  exists s1 s2 : Sys Scripted,
    0 < 3 /\
    mode 600 (module_with [OK_line "+CWMODE:1"; OK_CRLF]) =
      Some (Ret MODE_STATION, s1) /\
    send_at_cmd 600 "AT+CWLAP" 5 3 s1 = Some (Ret [], s2) /\
    existsb (startswith (lit "+CWLAP:(")) (split CRLF []) = false /\
    get_APs 600 (ESP_init false) 3 (module_with [OK_line "+CWMODE:1"; OK_CRLF])
      = Some (Ret (Some []), s2).
Proof.
  eexists. eexists.
  assert (Hm : mode 600 (module_with [OK_line "+CWMODE:1"; OK_CRLF]) =
               Some (Ret MODE_STATION, _))
    by (vm_compute; reflexivity).
  split; [lia|]. split; [exact Hm|].
  lazymatch goal with
  | |- ?P /\ _ => assert (Hs : P) by (vm_compute; reflexivity)
  end.
  split; [exact Hs|]. split; [reflexivity|].
  apply (get_APs_empty_scan_gives_empty_list 600 (ESP_init false) 3 _ _ _ _
           ltac:(lia) Hm Hs).
  reflexivity.
Defined.

Lemma status_reads_one_digit_witness :
  exists s' : Sys Scripted,
    send_at_cmd 600 "AT+CIPSTATUS" 5 3 (module_with [long_status_reply]) =
      Some (Ret (lit "STATUS:23" ++ CRLF ++ CRLF), s') /\
    split CRLF (lit "STATUS:23" ++ CRLF ++ CRLF) =
      [] ++ (lit "STATUS:" ++ x32 :: [x33]) :: [[]; []] /\
    existsb (startswith (lit "STATUS:")) [] = false /\
    digit_val x32 = Some 2 /\
    status 600 (module_with [long_status_reply]) = Some (Ret (Some 2), s').
Proof.
  eexists.
  assert (Hs : send_at_cmd 600 "AT+CIPSTATUS" 5 3
                 (module_with [long_status_reply]) =
               Some (Ret (lit "STATUS:23" ++ CRLF ++ CRLF), _))
    by (vm_compute; reflexivity).
  split; [exact Hs|]. split; [reflexivity|]. split; [reflexivity|].
  split; [reflexivity|].
  apply (status_reads_one_digit 600 _ _ _ [] [[]; []] x32 [x33] 2 Hs);
    reflexivity.
Defined.

Lemma status_without_digit_witness :
  exists s' : Sys Scripted,
    send_at_cmd 600 "AT+CIPSTATUS" 5 3 (module_with [OK_line "STATUS:x2"]) =
      Some (Ret (lit "STATUS:x2" ++ CRLF ++ CRLF), s') /\
    split CRLF (lit "STATUS:x2" ++ CRLF ++ CRLF) =
      [] ++ (lit "STATUS:" ++ lit "x2") :: [[]; []] /\
    existsb (startswith (lit "STATUS:")) [] = false /\
    (forall d, hd_error (lit "x2") = Some d ->
               digit_val d = None /\ d <> x5f) /\
    status 600 (module_with [OK_line "STATUS:x2"]) =
      Some (Raise ValueError, s').
Proof.
  eexists.
  assert (Hs : send_at_cmd 600 "AT+CIPSTATUS" 5 3
                 (module_with [OK_line "STATUS:x2"]) =
               Some (Ret (lit "STATUS:x2" ++ CRLF ++ CRLF), _))
    by (vm_compute; reflexivity).
  assert (Hd : forall d, hd_error (lit "x2") = Some d ->
                         digit_val d = None /\ d <> x5f).
  { intros d E. injection E as <-. split; [reflexivity | discriminate]. }
  split; [exact Hs|]. split; [reflexivity|]. split; [reflexivity|].
  split; [exact Hd|].
  apply (status_without_digit_raises 600 _ _ _ [] [[]; []] (lit "x2") Hs);
    [reflexivity | reflexivity | exact Hd].
Defined.

(** The line that ends at the colon. *)
Example status_bare_line :
  option_map fst (status 600 (module_with [bare_status_reply])) =
  Some (Raise ValueError).
Proof. vm_compute. reflexivity. Qed.

Lemma is_connected_reads_first_status_witness :
  exists s' : Sys Scripted,
    send_at_cmd 600 "AT+CIPSTATUS" 5 3 (module_with [long_status_reply]) =
      Some (Ret (lit "STATUS:23" ++ CRLF ++ CRLF), s') /\
    split CRLF (lit "STATUS:23" ++ CRLF ++ CRLF) =
      [] ++ (lit "STATUS:" ++ x32 :: [x33]) :: [[]; []] /\
    existsb (startswith (lit "STATUS:")) [] = false /\
    digit_val x32 = Some 2 /\
    is_connected 600 (module_with [long_status_reply]) =
      Some (Ret ((2 =? 2) || (2 =? 3) || (2 =? 4)), s').
Proof.
  eexists.
  assert (Hs : send_at_cmd 600 "AT+CIPSTATUS" 5 3
                 (module_with [long_status_reply]) =
               Some (Ret (lit "STATUS:23" ++ CRLF ++ CRLF), _))
    by (vm_compute; reflexivity).
  split; [exact Hs|]. split; [reflexivity|]. split; [reflexivity|].
  split; [reflexivity|].
  apply (is_connected_reads_first_status 600 _ _ _ [] [[]; []] x32 [x33] 2
           Hs); reflexivity.
Defined.

Lemma is_connected_without_line_witness :
  exists s' : Sys Scripted,
    send_at_cmd 600 "AT+CIPSTATUS" 5 3 (module_with [busy_reply]) =
      Some (Ret (lit "busy p..." ++ CRLF), s') /\
    existsb (startswith (lit "STATUS:"))
      (split CRLF (lit "busy p..." ++ CRLF)) = false /\
    is_connected 600 (module_with [busy_reply]) = Some (Ret false, s').
Proof.
  eexists.
  assert (Hs : send_at_cmd 600 "AT+CIPSTATUS" 5 3 (module_with [busy_reply]) =
               Some (Ret (lit "busy p..." ++ CRLF), _))
    by (vm_compute; reflexivity).
  split; [exact Hs|]. split; [reflexivity|].
  apply (is_connected_without_line_is_False 600 _ _ _ Hs). reflexivity.
Defined.

Lemma mode_without_line_witness :
  exists s' : Sys Scripted,
    send_at_cmd 600 "AT+CWMODE?" 5 3 (module_with [odd_mode_reply]) =
      Some (Ret (lit "busy p..." ++ CRLF), s') /\
    existsb (startswith (lit "+CWMODE:"))
      (split CRLF (lit "busy p..." ++ CRLF)) = false /\
    mode 600 (module_with [odd_mode_reply]) =
      Some (Raise (RuntimeError "Bad response to CWMODE?"), s').
Proof.
  eexists.
  assert (Hs : send_at_cmd 600 "AT+CWMODE?" 5 3 (module_with [odd_mode_reply])
               = Some (Ret (lit "busy p..." ++ CRLF), _))
    by (vm_compute; reflexivity).
  split; [exact Hs|]. split; [reflexivity|].
  apply (mode_without_line_raises 600 _ _ _ Hs). reflexivity.
Defined.

Lemma remote_AP_never_empty_witness :
  exists s' : Sys Scripted,
    remote_AP 1100 (module_with [OK_line "STATUS:2"; cwjap_reply]) =
      Some (Ret [VStr "home"; VStr "aa:bb:cc:dd:ee:ff"; VInt 6; VInt (-55)],
            s') /\
    exists (v : Value) (rest : list Value),
      [VStr "home"; VStr "aa:bb:cc:dd:ee:ff"; VInt 6; VInt (-55)]
        = v :: rest.
Proof.
  eexists.
  assert (Hr : remote_AP 1100 (module_with [OK_line "STATUS:2"; cwjap_reply])
               = Some (Ret [VStr "home"; VStr "aa:bb:cc:dd:ee:ff";
                            VInt 6; VInt (-55)], _))
    by (vm_compute; reflexivity).
  split; [exact Hr|].
  apply (remote_AP_never_empty 1100 _ _ _ Hr).
Defined.

Lemma remote_AP_without_line_witness :
  exists s1 s2 : Sys Scripted,
    status 1100 (module_with [OK_line "STATUS:2"; OK_line "No AP"]) =
      Some (Ret (Some STATUS_APCONNECTED), s1) /\
    send_at_cmd 1100 "AT+CWJAP?" 10 3 s1 =
      Some (Ret (lit "No AP" ++ CRLF ++ CRLF), s2) /\
    existsb (startswith (lit "+CWJAP:"))
      (split CRLF (lit "No AP" ++ CRLF ++ CRLF)) = false /\
    remote_AP 1100 (module_with [OK_line "STATUS:2"; OK_line "No AP"]) =
      Some (Ret null_AP, s2).
Proof.
  eexists. eexists.
  assert (Hs : status 1100 (module_with [OK_line "STATUS:2"; OK_line "No AP"])
               = Some (Ret (Some STATUS_APCONNECTED), _))
    by (vm_compute; reflexivity).
  split; [exact Hs|].
  lazymatch goal with
  | |- ?P /\ _ => assert (Hr : P) by (vm_compute; reflexivity)
  end.
  split; [exact Hr|]. split; [reflexivity|].
  apply (remote_AP_without_line_is_null 1100 _ _ _ _ Hs Hr). reflexivity.
Defined.

Lemma get_APs_passes_on_exception_witness :
  exists s1 s2 : Sys Scripted,
    0 < 3 /\
    mode 600 (module_with [OK_line "+CWMODE:1";
                           plain_error; plain_error; plain_error]) =
      Some (Ret MODE_STATION, s1) /\
    send_at_cmd 600 "AT+CWLAP" 5 3 s1 =
      Some (Raise (Exception "No OK response to AT+CWLAP"), s2) /\
    get_APs 600 (ESP_init false) 3
      (module_with [OK_line "+CWMODE:1";
                    plain_error; plain_error; plain_error]) =
      Some (Raise (Exception "No OK response to AT+CWLAP"), s2).
Proof.
  eexists. eexists.
  assert (Hm : mode 600 (module_with [OK_line "+CWMODE:1";
                                      plain_error; plain_error; plain_error])
               = Some (Ret MODE_STATION, _))
    by (vm_compute; reflexivity).
  split; [lia|]. split; [exact Hm|].
  lazymatch goal with
  | |- ?P /\ _ => assert (Hs : P) by (vm_compute; reflexivity)
  end.
  split; [exact Hs|].
  apply (get_APs_passes_on_exception 600 (ESP_init false) 3 _ _ _ _
           ltac:(lia) Hm Hs).
Defined.

Lemma get_APs_swallows_RuntimeError_witness :
  exists s1 : Sys Scripted,
    mode 600 (module_with [odd_mode_reply]) =
      Some (Raise (RuntimeError "Bad response to CWMODE?"), s1) /\
    get_APs 600 (ESP_init false) 1 (module_with [odd_mode_reply]) =
      Some (Ret None, s1).
Proof.
  eexists.
  assert (Hm : mode 600 (module_with [odd_mode_reply]) =
               Some (Raise (RuntimeError "Bad response to CWMODE?"), _))
    by (vm_compute; reflexivity).
  split; [exact Hm|].
  apply (proj2 (get_APs_swallows_RuntimeError 600 (ESP_init false) _ _ _ Hm)).
Defined.

Lemma get_APs_not_station_witness :
  exists s1 : Sys Scripted,
    0 < 3 /\
    mode 600 softap_module = Some (Ret MODE_SOFTAPSTATION, s1) /\
    MODE_SOFTAPSTATION <> MODE_STATION /\
    get_APs 600 (ESP_init false) 3 softap_module =
      Some (Raise (AttributeError "_initialized"), s1).
Proof.
  eexists.
  assert (Hm : mode 600 softap_module = Some (Ret MODE_SOFTAPSTATION, _))
    by (vm_compute; reflexivity).
  split; [lia|]. split; [exact Hm|]. split; [discriminate|].
  apply (get_APs_not_station_raises 600 false 3 _ _ _ ltac:(lia) Hm).
  discriminate.
Defined.

Lemma join_ap_not_station_witness :
  exists s1 : Sys Scripted,
    mode 600 softap_module = Some (Ret MODE_SOFTAPSTATION, s1) /\
    MODE_SOFTAPSTATION <> MODE_STATION /\
    join_ap 600 (ESP_init false) "home" "secret" softap_module =
      Some (Raise (AttributeError "_initialized"), s1).
Proof.
  eexists.
  assert (Hm : mode 600 softap_module = Some (Ret MODE_SOFTAPSTATION, _))
    by (vm_compute; reflexivity).
  split; [exact Hm|]. split; [discriminate|].
  apply (join_ap_not_station_raises 600 false "home" "secret" _ _ _ Hm).
  discriminate.
Defined.

Lemma join_ap_returns_whatever_witness :
  exists (s1 s2 s3 : Sys Scripted),
    mode 1600 (module_with [OK_line "+CWMODE:1"; OK_line "STATUS:5";
                            OK_line "WIFI DISCONNECT"]) =
      Some (Ret MODE_STATION, s1) /\
    remote_AP 1600 s1 = Some (Ret null_AP, s2) /\
    already_joined null_AP "home" = false /\
    send_at_cmd 1600 (join_cmd "home" "secret") 15 3 s2 =
      Some (Ret (lit "WIFI DISCONNECT" ++ CRLF ++ CRLF), s3) /\
    join_ap 1600 (ESP_init false) "home" "secret"
      (module_with [OK_line "+CWMODE:1"; OK_line "STATUS:5";
                    OK_line "WIFI DISCONNECT"]) = Some (Ret tt, s3).
Proof.
  eexists. eexists. eexists.
  assert (Hm : mode 1600 (module_with [OK_line "+CWMODE:1"; OK_line "STATUS:5";
                                       OK_line "WIFI DISCONNECT"]) =
               Some (Ret MODE_STATION, _))
    by (vm_compute; reflexivity).
  split; [exact Hm|].
  lazymatch goal with
  | |- ?P /\ _ => assert (Hr : P) by (vm_compute; reflexivity)
  end.
  split; [exact Hr|]. split; [reflexivity|].
  lazymatch goal with
  | |- ?P /\ _ => assert (Hs : P) by (vm_compute; reflexivity)
  end.
  split; [exact Hs|].
  apply (join_ap_returns_whatever_the_reply 1600 (ESP_init false)
           "home" "secret" _ _ _ _ _ _ Hm Hr eq_refl Hs).
Defined.

Lemma ping_raises_only_witness :
  exists s' : Sys Scripted,
    ping 600 true "example.org" (module_with [OK_line "busy p..."]) =
      Some (Raise (RuntimeError "Couldn't ping"), s') /\
    ((true = false /\ RuntimeError "Couldn't ping" = AttributeError "write" /\
      s' = module_with [OK_line "busy p..."]) \/
     (true = true /\
      (RuntimeError "Couldn't ping" =
         Exception ("No OK response to " ++ ping_command "example.org") \/
       RuntimeError "Couldn't ping" = RuntimeError "Couldn't ping"))).
Proof.
  eexists.
  assert (Hp : ping 600 true "example.org" (module_with [OK_line "busy p..."])
               = Some (Raise (RuntimeError "Couldn't ping"), _))
    by (vm_compute; reflexivity).
  split; [exact Hp|].
  apply (ping_raises_only 600 true "example.org" _ _ _ Hp).
Defined.

(** [ping] on an object whose UART could not be built. *)
Example ping_without_uart :
  ping 600 false "example.org" (module_with [ping_plain_reply]) =
  Some (Raise (AttributeError "write"), module_with [ping_plain_reply]).
Proof. reflexivity. Qed.

Lemma ping_error_reply_witness :
  exists s' : Sys Scripted,
    is_join (ping_command "example.org") = false /\
    exchange 600 (ping_command "example.org") 5 (module_with [ping_reply]) =
      Some (ping_reply, s') /\
    contains ERROR_CRLF ping_reply = true /\
    ping 600 true "example.org" (module_with [ping_reply]) =
      Some (ping_scan (split CRLF ping_reply), s') /\
    ping_scan (split CRLF ping_reply) = Ret None.
Proof.
  eexists.
  assert (Hx : exchange 600 (ping_command "example.org") 5
                 (module_with [ping_reply]) = Some (ping_reply, _))
    by (vm_compute; reflexivity).
  split; [reflexivity|]. split; [exact Hx|]. split; [reflexivity|].
  split; [|reflexivity].
  apply (ping_error_reply_is_decoded 600 "example.org" _ _ _ eq_refl Hx).
  reflexivity.
Defined.

Lemma ping_reads_tagged_witness :
  exists s' : Sys Scripted,
    send_at_cmd 600 (ping_command "example.org") 5 3
      (module_with [ping_tagged_reply]) =
      Some (Ret (lit "+PING:12" ++ CRLF ++ CRLF), s') /\
    split CRLF (lit "+PING:12" ++ CRLF ++ CRLF) =
      [] ++ lit "+PING:12" :: [[]; []] /\
    existsb (fun l => nonempty l && startswith (lit "+") l) [] = false /\
    ping 600 true "example.org" (module_with [ping_tagged_reply]) =
      Some (Ret (int (lit "12")), s') /\
    int (lit "12") = Some 12.
Proof.
  eexists.
  assert (Hs : send_at_cmd 600 (ping_command "example.org") 5 3
                 (module_with [ping_tagged_reply]) =
               Some (Ret (lit "+PING:12" ++ CRLF ++ CRLF), _))
    by (vm_compute; reflexivity).
  split; [exact Hs|]. split; [reflexivity|]. split; [reflexivity|].
  split; [|reflexivity].
  apply (proj1 (ping_reads_both_forms 600 "example.org" _ _ _ []
                  [[]; []] (lit "+PING:12") Hs eq_refl eq_refl)
           x3a (lit "12")).
  reflexivity.
Defined.

Lemma local_ip_witness :
  exists s' : Sys Scripted,
    send_at_cmd 2100 "AT+CIFSR" 20 3 (module_with [cifsr_reply]) =
      Some (Ret (drop_last 4 cifsr_reply), s') /\
    split CRLF (strip_chars CRLF (drop_last 4 cifsr_reply)) =
      [] ++ (STAIP_prefix ++ lit "192.168.1.5" ++ [QUOTE])
         :: [lit "+CIFSR:STAMAC," ++ [QUOTE] ++ lit "aa:bb:cc:dd:ee:ff"
               ++ [QUOTE]] /\
    existsb (fun l => nonempty l && startswith STAIP_prefix l) [] = false /\
    utf8_check (lit "192.168.1.5") = true /\
    local_ip 2100 (module_with [cifsr_reply]) =
      Some ((if utf8_check (lit "192.168.1.5")
             then Ret (string_of_list_byte (lit "192.168.1.5"))
             else Raise UnicodeError), s').
Proof.
  eexists.
  assert (Hs : send_at_cmd 2100 "AT+CIFSR" 20 3 (module_with [cifsr_reply]) =
               Some (Ret (drop_last 4 cifsr_reply), _))
    by (vm_compute; reflexivity).
  split; [exact Hs|]. split; [reflexivity|]. split; [reflexivity|].
  split; [reflexivity|].
  apply (local_ip_returns_quoted_address 2100 _ _ _ []
           [lit "+CIFSR:STAMAC," ++ [QUOTE] ++ lit "aa:bb:cc:dd:ee:ff"
              ++ [QUOTE]]
           (lit "192.168.1.5") QUOTE Hs);
    reflexivity.
Defined.

Lemma local_ip_without_line_witness :
  exists s' : Sys Scripted,
    send_at_cmd 2100 "AT+CIFSR" 20 3 (module_with [OK_line "busy p..."]) =
      Some (Ret (lit "busy p..." ++ CRLF ++ CRLF), s') /\
    existsb (fun l => nonempty l && startswith STAIP_prefix l)
      (split CRLF (strip_chars CRLF (lit "busy p..." ++ CRLF ++ CRLF)))
      = false /\
    local_ip 2100 (module_with [OK_line "busy p..."]) =
      Some (Raise (RuntimeError "Couldn't find IP address"), s').
Proof.
  eexists.
  assert (Hs : send_at_cmd 2100 "AT+CIFSR" 20 3
                 (module_with [OK_line "busy p..."]) =
               Some (Ret (lit "busy p..." ++ CRLF ++ CRLF), _))
    by (vm_compute; reflexivity).
  split; [exact Hs|]. split; [reflexivity|].
  apply (local_ip_without_line_raises 2100 _ _ _ Hs). reflexivity.
Defined.

Lemma soft_reset_echo_witness :
  exists s' : Sys Scripted,
    soft_reset 600 true (module_with [rst_reply]) = Some (Ret true, s') /\
    true = true /\
    exists (reply : bytes) (s1 : Sys Scripted),
      send_at_cmd 600 "AT+RST" 1 3 (module_with [rst_reply]) =
        Some (Ret reply, s1) /\
      strip_chars CRLF reply = lit "AT+RST" /\
      s' = sleep 2 s1.
Proof.
  eexists.
  assert (Hr : soft_reset 600 true (module_with [rst_reply]) =
               Some (Ret true, _))
    by (vm_compute; reflexivity).
  split; [exact Hr|].
  apply (soft_reset_True_only_after_echo 600 true _ _ Hr).
Defined.

Lemma connect_returns_only_True_witness :
  exists s' : Sys Scripted,
    connect 5 1100 (ESP_init false) home_secrets
      (module_with [OK_line "STATUS:2"; cwjap_reply]) = Some (Ret true, s') /\
    true = true.
Proof.
  eexists.
  assert (Hc : connect 5 1100 (ESP_init false) home_secrets
                 (module_with [OK_line "STATUS:2"; cwjap_reply]) =
               Some (Ret true, _))
    by (vm_compute; reflexivity).
  split; [exact Hc|].
  apply (connect_returns_only_True 5 1100 (ESP_init false) home_secrets
           _ _ _ Hc).
Defined.

Lemma connect_raises_no_RuntimeError_witness :
  exists s' : Sys Scripted,
    connect 5 1100 (ESP_init false) home_secrets
      (module_with [OK_line "STATUS:5"; OK_line "+CWMODE:3"]) =
      Some (Raise (AttributeError "_initialized"), s') /\
    match AttributeError "_initialized" with
    | RuntimeError _ => False
    | _ => True
    end.
Proof.
  eexists.
  assert (Hc : connect 5 1100 (ESP_init false) home_secrets
                 (module_with [OK_line "STATUS:5"; OK_line "+CWMODE:3"]) =
               Some (Raise (AttributeError "_initialized"), _))
    by (vm_compute; reflexivity).
  split; [exact Hc|].
  apply (connect_raises_no_RuntimeError 5 1100 (ESP_init false) home_secrets
           _ _ _ Hc).
Defined.

Lemma connect_already_joined_witness :
  exists s1 : Sys Scripted,
    remote_AP 1100 (module_with [OK_line "STATUS:2"; cwjap_reply]) =
      Some (Ret [VStr "home"; VStr "aa:bb:cc:dd:ee:ff"; VInt 6; VInt (-55)],
            s1) /\
    already_joined
      [VStr "home"; VStr "aa:bb:cc:dd:ee:ff"; VInt 6; VInt (-55)]
      (secrets_ssid home_secrets) = true /\
    connect 1 1100 (ESP_init false) home_secrets
      (module_with [OK_line "STATUS:2"; cwjap_reply]) = Some (Ret true, s1).
Proof.
  eexists.
  assert (Hr : remote_AP 1100 (module_with [OK_line "STATUS:2"; cwjap_reply])
               = Some (Ret [VStr "home"; VStr "aa:bb:cc:dd:ee:ff";
                            VInt 6; VInt (-55)], _))
    by (vm_compute; reflexivity).
  split; [exact Hr|]. split; [reflexivity|].
  apply (connect_already_joined 0 1100 (ESP_init false) home_secrets
           _ _ _ Hr).
  reflexivity.
Defined.
